(** * Device-scoped token lifecycle of [backend/routers/auth.py]

    A shallow embedding of the authentication router: the per-device JWT
    issuer and verifier, the device registry, the user provisioning
    endpoints and the session context resolver, followed by the properties
    of the specification that concern them.

    Conventions of the embedding
    - a Python [str] is a [string], a [datetime] is a [Z] (seconds since the
      epoch, the resolution a JWT keeps), a [timedelta] is a [Z] of seconds;
    - the SQLAlchemy session [db] is the state of a small state-and-exception
      monad [M]; [db.add], [db.commit], [db.rollback] and the queries are its
      primitive operations;
    - what Python draws from its environment ([datetime.now], [uuid.uuid4],
      [secrets.token_urlsafe], the availability of the storage engine at a
      commit) is read from a [World], one draw per call;
    - a Python exception is a value of [Exception]; [try ... except] is
      [try_except]. *)

From Stdlib Require Import ZArith String List Bool Lia.
From stdpp Require Import base decidable option list strings pretty gmap.

Local Open Scope Z_scope.
Local Open Scope string_scope.

(** ** config.py *)

Definition JWT_ALGORITHM : string := "HS256".
Definition JWT_ACCESS_TOKEN_EXPIRE_DAYS : Z := 7.

(** [timedelta(days=n)] in seconds. *)
Definition timedelta_days (n : Z) : Z := n * 86400.

(** ** The JOSE layer ([jose.jwt]) and the other pure library functions

    [Claims] is the JSON object a token carries, restricted to the four keys
    the router writes and reads; an absent key is [None]. *)

Record Claims := mkClaims {
  sub : option string;
  device_id : option string;
  iat : option Z;
  exp : option Z
}.

Global Instance Claims_eq_dec : EqDecision Claims.
Proof. solve_decision. Defined.

(** The keyed hash behind algorithm HS256 and the [isoformat] rendering of a
    [datetime] are library functions; the router is parametric in them.  The
    signing input of a JWS is its header (here: the algorithm name) together
    with its payload. *)
Class Externals := {
  Sig : Type;
  Sig_eq_dec :: EqDecision Sig;
  hmac_sha256 : string -> string * Claims -> Sig;
  isoformat : Z -> string
}.


Inductive JWTErrorKind :=
| DecodeError          (* not a well-formed compact JWS *)
| AlgorithmNotAllowed  (* header algorithm outside [algorithms] *)
| SignatureFailed      (* signature verification failed *)
| ExpiredSignature.    (* ExpiredSignatureError, a subclass of JWTError *)

Global Instance JWTErrorKind_eq_dec : EqDecision JWTErrorKind.
Proof. solve_decision. Defined.

Inductive Exception :=
| HTTPException (status_code : Z) (detail : string)
| JWTError (kind : JWTErrorKind)
| IntegrityError       (* a constraint of the schema rejected the flush *)
| OperationalError     (* the storage engine failed *)
| ValidationError.     (* pydantic rejected the fields of a response model *)

Global Instance Exception_eq_dec : EqDecision Exception.
Proof. solve_decision. Defined.

Definition status_of (e : Exception) : option Z :=
  match e with HTTPException s _ => Some s | _ => None end.

(** ** database.py: rows and the session *)

Module DBUser.
Record t := mk {
  id : string;
  username : string;
  email : string;
  tier : string;
  subscription_valid_until : option Z;
  last_tool_run_at : option Z;
  created_at : Z;
  updated_at : Z
}.
End DBUser.

Module DBDevice.
(** Modelled from the spec: the [Device] class that [auth.py] imports from
    [database] is not among the sources.  The fields are the keyword
    arguments of the [DBDevice(...)] calls of [auth.py], which are the columns
    of the [devices] table of [alembic/versions/add_device_table.py]; the
    surrogate key [id] of that table is assigned by the store and read only
    by log lines, so a row is identified by its position in the table. *)
Record t := mk {
  device_id : string;
  device_name : option string;
  device_type : option string;
  jwt_secret_key : string;
  user_id : string;
  is_active : bool;
  last_used_at : Z;
  created_at : Z;
  updated_at : Z
}.

(** [device.last_used_at = now] *)
Definition touch (now : Z) (d : t) : t :=
  mk (device_id d) (device_name d) (device_type d) (jwt_secret_key d)
     (user_id d) (is_active d) now (created_at d) (updated_at d).
End DBDevice.

(** A change the session holds until the next commit. *)
Inductive Change :=
| AddUser (u : DBUser.t)
| AddDevice (d : DBDevice.t)
| SetLastUsed (row : nat) (now : Z).

(** The committed tables, in insertion order, and the uncommitted changes of
    the open session. *)
Record Session := mkSession {
  users : list DBUser.t;
  devices : list DBDevice.t;
  pending : list Change
}.

(** The constraints of the schema, checked when a change is flushed: primary
    key and unique e-mail on [users]; unique [device_id] and the foreign key
    to [users] on [devices]. *)
Definition flush_change (s : Session) (c : Change) : option Session :=
  match c with
  | AddUser u =>
      if bool_decide (DBUser.id u ∈ DBUser.id <$> users s)
         || bool_decide (DBUser.email u ∈ DBUser.email <$> users s)
      then None
      else Some (mkSession (users s ++ [u]) (devices s) (pending s))
  | AddDevice d =>
      if bool_decide (DBDevice.device_id d ∈ DBDevice.device_id <$> devices s)
         || negb (bool_decide (DBDevice.user_id d ∈ DBUser.id <$> users s))
      then None
      else Some (mkSession (users s) (devices s ++ [d]) (pending s))
  | SetLastUsed row now =>
      Some (mkSession (users s) (alter (DBDevice.touch now) row (devices s))
                      (pending s))
  end.

Fixpoint flush (s : Session) (cs : list Change) : option Session :=
  match cs with
  | [] => Some s
  | c :: cs' =>
      match flush_change s c with
      | Some s' => flush s' cs'
      | None => None
      end
  end.

(** ** The environment and the monad *)

Record World := mkWorld {
  clock : nat -> Z;               (* datetime.now(timezone.utc) *)
  uuid4 : nat -> string;          (* str(uuid.uuid4()) *)
  token_urlsafe : nat -> string;  (* secrets.token_urlsafe(32) *)
  storage_up : nat -> bool        (* does the engine serve this commit? *)
}.

(** [tick] counts the draws made from the world so far. *)
Record Machine := mkMachine {
  db : Session;
  tick : nat
}.

Inductive Result (A : Type) :=
| Ok (a : A)
| Raise (e : Exception).
Arguments Ok {A} a.
Arguments Raise {A} e.

Definition M (A : Type) : Type := World -> Machine -> Result A * Machine.

Definition ret {A} (a : A) : M A := fun _ m => (Ok a, m).

Definition bind {A B} (c : M A) (k : A -> M B) : M B :=
  fun w m =>
    match c w m with
    | (Ok a, m') => k a w m'
    | (Raise e, m') => (Raise e, m')
    end.

Definition raise {A} (e : Exception) : M A := fun _ m => (Raise e, m).

Definition try_except {A} (body : M A) (handler : Exception -> M A) : M A :=
  fun w m =>
    match body w m with
    | (Ok a, m') => (Ok a, m')
    | (Raise e, m') => handler e w m'
    end.

Notation "'let*' x ':=' c 'in' k" := (bind c (fun x => k))
  (at level 10, x pattern, c at level 100, k at level 200).
Notation "c ';;;' k" := (bind c (fun _ => k))
  (at level 100, k at level 200, right associativity).

Definition draw {A} (oracle : World -> nat -> A) : M A :=
  fun w m => (Ok (oracle w (tick m)), mkMachine (db m) (S (tick m))).

Definition datetime_now : M Z := draw clock.
Definition str_uuid4 : M string := draw uuid4.
Definition secrets_token_urlsafe : M string := draw token_urlsafe.

Definition get_session : M Session := fun _ m => (Ok (db m), m).
Definition put_session (s : Session) : M unit :=
  fun _ m => (Ok tt, mkMachine s (tick m)).

Definition db_add (c : Change) : M unit :=
  let* s := get_session in
  put_session (mkSession (users s) (devices s) (pending s ++ [c])).

(** [db.commit()]: flush the pending changes in order; the commit raises, and
    the tables stay as they were, when the engine is down or a constraint
    rejects a change. *)
Definition db_commit : M unit :=
  let* up := draw storage_up in
  let* s := get_session in
  if up : bool then
    match flush (mkSession (users s) (devices s) []) (pending s) with
    | Some s' => put_session s'
    | None => raise IntegrityError
    end
  else raise OperationalError.

(** [db.rollback()]: forget what has not been committed. *)
Definition db_rollback : M unit :=
  let* s := get_session in
  put_session (mkSession (users s) (devices s) []).

(** [db.refresh(obj)] re-reads a row that was just committed. *)
Definition db_refresh : M unit := ret tt.

(** The filter of both device queries:
    [device_id == f, user_id == u, is_active == True]. *)
Definition device_row_matches (f u : string) (d : DBDevice.t) : Prop :=
  DBDevice.device_id d = f /\ DBDevice.user_id d = u /\ DBDevice.is_active d = true.

Global Instance device_row_matches_dec f u d : Decision (device_row_matches f u d).
Proof. unfold device_row_matches. apply _. Defined.

(** [db.query(DBDevice).filter(...).first()], with the position of the row. *)
Definition query_device_first (f u : string) : M (option (nat * DBDevice.t)) :=
  let* s := get_session in
  ret (list_find (device_row_matches f u) (devices s)).

(** [db.query(DBUser).filter(DBUser.email == e).first()] *)
Definition query_user_by_email (e : string) : M (option DBUser.t) :=
  let* s := get_session in
  ret (snd <$> list_find (fun u => DBUser.email u = e) (users s)).

(** [db.query(DBUser).filter(DBUser.id == i).first()] *)
Definition query_user_by_id (i : string) : M (option DBUser.t) :=
  let* s := get_session in
  ret (snd <$> list_find (fun u => DBUser.id u = i) (users s)).

(** [db.query(DBUser).first()]: the row the store returns first, the tables
    being kept in insertion order. *)
Definition query_user_first : M (option DBUser.t) :=
  let* s := get_session in
  ret (head (users s)).

(** The request-scoped session of [get_db]: the handler runs, then
    [db.close()] drops whatever the handler left uncommitted. *)
Definition close (m : Machine) : Machine :=
  mkMachine (mkSession (users (db m)) (devices (db m)) []) (tick m).

Definition run_request {A} (handler : M A) (w : World) (m : Machine)
  : Result A * Machine :=
  let (r, m') := handler w m in (r, close m').

(** ** [jose.jwt]

    A [str] that holds a compact JWS is represented by what it parses to:
    the algorithm of its header, its claims and its signature; every other
    string is [Malformed]. *)

Section Router.
Context `{Externals}.

Inductive Token :=
| Malformed
| JWS (alg : string) (claims : Claims) (signature : Sig).

(** [jwt.encode(claims, key, algorithm=alg)] *)
Definition jwt_encode (claims : Claims) (key alg : string) : Token :=
  JWS alg claims (hmac_sha256 key (alg, claims)).

(** [jwt.decode(token, options={"verify_signature": False})]: the claims as
    the token states them, nothing checked. *)
Definition jwt_decode_unverified (token : Token) : M Claims :=
  match token with
  | Malformed => raise (JWTError DecodeError)
  | JWS _ claims _ => ret claims
  end.

(** [jwt.decode(token, key, algorithms=algorithms)]: the header algorithm must
    be allowed, the signature must be the keyed hash of the signing input
    under [key], and [exp], when present, must not lie before the current
    time. *)
Definition jwt_decode (token : Token) (key : string) (algorithms : list string)
  : M Claims :=
  match token with
  | Malformed => raise (JWTError DecodeError)
  | JWS alg claims signature =>
      if negb (bool_decide (alg ∈ algorithms))
      then raise (JWTError AlgorithmNotAllowed)
      else if negb (bool_decide (signature = hmac_sha256 key (alg, claims)))
      then raise (JWTError SignatureFailed)
      else match exp claims with
           | Some e =>
               let* now := datetime_now in
               if (e <? now)%Z then raise (JWTError ExpiredSignature)
               else ret claims
           | None => ret claims
           end
  end.

(** Truth value of an optional string: [None] and [""] are false. *)
Definition truthy (o : option string) : bool :=
  match o with
  | Some s => negb (String.eqb s "")
  | None => false
  end.

(** ** Response models *)

Record UserResponse := mkUserResponse {
  ur_id : string;
  ur_username : string;
  ur_email : string;
  ur_tier : string;
  ur_subscription_valid_until : option string;
  ur_created_at : string
}.

Record TokenResponse := mkTokenResponse {
  access_token : Token;
  token_type : string;
  user : UserResponse
}.

(** The [UserResponse(id=..., ...)] expression every endpoint builds from a
    user row. *)
Definition user_response_of (u : DBUser.t) : UserResponse :=
  mkUserResponse (DBUser.id u) (DBUser.username u) (DBUser.email u)
    (DBUser.tier u)
    (match DBUser.subscription_valid_until u with
     | Some t => Some (isoformat t)
     | None => None
     end)
    (isoformat (DBUser.created_at u)).

(** ** create_device_specific_jwt *)

Definition create_device_specific_jwt (user_id device_id device_secret : string)
    (expires_delta : option Z) : M Token :=
  let* issued := datetime_now in
  let* expire :=
    match expires_delta with
    | Some delta =>
        if (delta =? 0)%Z
        then (let* now := datetime_now in
              ret (now + timedelta_days JWT_ACCESS_TOKEN_EXPIRE_DAYS))
        else (let* now := datetime_now in ret (now + delta))
    | None =>
        let* now := datetime_now in
        ret (now + timedelta_days JWT_ACCESS_TOKEN_EXPIRE_DAYS)
    end in
  ret (jwt_encode (mkClaims (Some user_id) (Some device_id) (Some issued)
                            (Some expire))
                  device_secret JWT_ALGORITHM).

(** ** get_or_create_device_for_fingerprint *)

Definition get_or_create_device_for_fingerprint
    (device_fingerprint : string) (device_name device_type : option string)
    (user_id : string) : M DBDevice.t :=
  let* existing_device := query_device_first device_fingerprint user_id in
  match existing_device with
  | Some (row, d) =>
      let* now := datetime_now in
      db_add (SetLastUsed row now) ;;;
      db_commit ;;;
      ret (DBDevice.touch now d)
  | None =>
      let* device_secret := secrets_token_urlsafe in
      let* now := datetime_now in
      let new_device :=
        DBDevice.mk device_fingerprint device_name device_type device_secret
                    user_id true now now now in
      db_add (AddDevice new_device) ;;;
      db_commit ;;;
      db_refresh ;;;
      ret new_device
  end.

(** ** verify_device_token *)

(** The body of the [try] statement. *)
Definition verify_device_token_body (token : Token) : M Claims :=
  let* unverified_payload := jwt_decode_unverified token in
  let device_id := device_id unverified_payload in
  let user_id := sub unverified_payload in
  if negb (truthy device_id) || negb (truthy user_id)
  then raise (HTTPException 401 "Invalid token format")
  else
    let* device := query_device_first (default "" device_id)
                                      (default "" user_id) in
    match device with
    | None => raise (HTTPException 401 "Device not found or inactive")
    | Some (row, d) =>
        let* payload :=
          jwt_decode token (DBDevice.jwt_secret_key d) [JWT_ALGORITHM] in
        let* now := datetime_now in
        db_add (SetLastUsed row now) ;;;
        db_commit ;;;
        ret payload
    end.

(** The two [except] clauses: [except JWTError] first, then
    [except Exception], which every other exception reaches, the
    [HTTPException]s raised in the body included. *)
Definition verify_device_token_handler (e : Exception) : M Claims :=
  match e with
  | JWTError _ => raise (HTTPException 401 "Invalid token")
  | _ => raise (HTTPException 401 "Token verification failed")
  end.

Definition verify_device_token (token : Token) : M Claims :=
  try_except (verify_device_token_body token) verify_device_token_handler.

(** ** get_current_user *)

(** A value stored in the [dict] that [get_current_user] returns. *)
Inductive Value :=
| VStr (s : string)
| VDateTime (t : Z)
| VNone.

Definition optional_datetime (o : option Z) : Value :=
  match o with Some t => VDateTime t | None => VNone end.

(** The [Authorization] header when it is sent: [Bearer token] is the string
    ["Bearer "] followed by the token, [Other value] any string that does not
    start with ["Bearer "], the empty one included. *)
Inductive AuthorizationValue :=
| Bearer (token : Token)
| Other (value : string).

Definition current_user_dict (u : DBUser.t) (device_id : string)
  : gmap string Value :=
  <["id" := VStr (DBUser.id u)]>
  (<["username" := VStr (DBUser.username u)]>
  (<["email" := VStr (DBUser.email u)]>
  (<["tier" := VStr (DBUser.tier u)]>
  (<["subscription_valid_until" :=
       optional_datetime (DBUser.subscription_valid_until u)]>
  (<["last_tool_run_at" := optional_datetime (DBUser.last_tool_run_at u)]>
  (<["created_at" := VDateTime (DBUser.created_at u)]>
  (<["updated_at" := VDateTime (DBUser.updated_at u)]>
  (<["device_id" := VStr device_id]> ∅)))))))).

Definition get_current_user (authorization : option AuthorizationValue)
  : M (gmap string Value) :=
  match authorization with
  | None | Some (Other _) =>
      raise (HTTPException 401 "Authorization token required")
  | Some (Bearer token) =>
      try_except
        (let* payload := verify_device_token token in
         let user_id := sub payload in
         let device_id := device_id payload in
         if negb (truthy user_id) || negb (truthy device_id)
         then raise (HTTPException 401 "Invalid token")
         else
           let* user := query_user_by_id (default "" user_id) in
           match user with
           | None => raise (HTTPException 401 "User not found")
           | Some u => ret (current_user_dict u (default "" device_id))
           end)
        (fun e =>
           match e with
           | HTTPException _ _ => raise e
           | _ => raise (HTTPException 401 "Token verification failed")
           end)
  end.

(** ** The endpoints that provision users and devices *)

Record UserCreate := mkUserCreate {
  uc_username : string;
  uc_email : string
}.

Record DeviceConnectRequest := mkDeviceConnectRequest {
  device_fingerprint : string;
  dc_device_name : option string;
  dc_device_type : option string
}.

(** The handler shared by the endpoints: [try: db.rollback() except: pass],
    then the generic 500. *)
Definition internal_error {A} (message : string) : M A :=
  try_except db_rollback (fun _ => ret tt) ;;;
  raise (HTTPException 500 message).

(** The device row that [register], [login] and [auto_login] insert. *)
Definition web_browser_device (device_id device_secret user_id : string)
    (now : Z) : DBDevice.t :=
  DBDevice.mk device_id (Some "Web Browser") (Some "web") device_secret
              user_id true now now now.

Definition register (user_data : UserCreate) : M TokenResponse :=
  try_except
    (let* existing_user := query_user_by_email (uc_email user_data) in
     match existing_user with
     | Some _ => raise (HTTPException 400 "Email already registered")
     | None =>
         let* user_id := str_uuid4 in
         let* now := datetime_now in
         let db_user :=
           DBUser.mk user_id (uc_username user_data) (uc_email user_data)
                     "essential" None None now now in
         db_add (AddUser db_user) ;;;
         db_commit ;;;
         db_refresh ;;;
         let* device_id := str_uuid4 in
         let* device_secret := secrets_token_urlsafe in
         db_add (AddDevice (web_browser_device device_id device_secret
                                               user_id now)) ;;;
         db_commit ;;;
         let* access_token :=
           create_device_specific_jwt user_id device_id device_secret None in
         ret (mkTokenResponse access_token "bearer" (user_response_of db_user))
     end)
    (fun e =>
       match e with
       | HTTPException _ _ => raise e
       | _ => internal_error
                "An internal server error occurred during registration"
       end).

Definition login (user_data : UserCreate) : M TokenResponse :=
  try_except
    (let* user := query_user_by_email (uc_email user_data) in
     match user with
     | None => register user_data
     | Some u =>
         let* device_id := str_uuid4 in
         let* device_secret := secrets_token_urlsafe in
         let* now := datetime_now in
         db_add (AddDevice (web_browser_device device_id device_secret
                                               (DBUser.id u) now)) ;;;
         db_commit ;;;
         let* access_token :=
           create_device_specific_jwt (DBUser.id u) device_id device_secret
                                      None in
         ret (mkTokenResponse access_token "bearer" (user_response_of u))
     end)
    (fun e =>
       match e with
       | HTTPException _ _ => raise e
       | _ => internal_error "An internal server error occurred during login"
       end).

(** The default identity that [auto_connect] and [auto_login] create. *)
Definition demo_user (user_id : string) (now : Z) : DBUser.t :=
  DBUser.mk user_id "Demo User" "demo@example.com" "essential" None None
            now now.

Definition auto_connect (device_request : DeviceConnectRequest)
  : M TokenResponse :=
  try_except
    (let* existing_user := query_user_first in
     match existing_user with
     | Some u =>
         let* device :=
           get_or_create_device_for_fingerprint
             (device_fingerprint device_request)
             (dc_device_name device_request)
             (dc_device_type device_request) (DBUser.id u) in
         let* access_token :=
           create_device_specific_jwt (DBUser.id u)
             (DBDevice.device_id device) (DBDevice.jwt_secret_key device)
             None in
         ret (mkTokenResponse access_token "bearer" (user_response_of u))
     | None =>
         let* user_id := str_uuid4 in
         let* now := datetime_now in
         let db_user := demo_user user_id now in
         db_add (AddUser db_user) ;;;
         db_commit ;;;
         db_refresh ;;;
         let* device :=
           get_or_create_device_for_fingerprint
             (device_fingerprint device_request)
             (dc_device_name device_request)
             (dc_device_type device_request) user_id in
         let* access_token :=
           create_device_specific_jwt user_id (DBDevice.device_id device)
             (DBDevice.jwt_secret_key device) None in
         ret (mkTokenResponse access_token "bearer" (user_response_of db_user))
     end)
    (fun _ =>
       internal_error "An internal server error occurred during auto-connect").

Definition auto_login : M TokenResponse :=
  try_except
    (let* existing_user := query_user_first in
     match existing_user with
     | Some u =>
         let* device_id := str_uuid4 in
         let* device_secret := secrets_token_urlsafe in
         let* now := datetime_now in
         db_add (AddDevice (web_browser_device device_id device_secret
                                               (DBUser.id u) now)) ;;;
         db_commit ;;;
         let* access_token :=
           create_device_specific_jwt (DBUser.id u) device_id device_secret
                                      None in
         ret (mkTokenResponse access_token "bearer" (user_response_of u))
     | None =>
         let* user_id := str_uuid4 in
         let* now := datetime_now in
         let db_user := demo_user user_id now in
         db_add (AddUser db_user) ;;;
         db_commit ;;;
         db_refresh ;;;
         let* device_id := str_uuid4 in
         let* device_secret := secrets_token_urlsafe in
         db_add (AddDevice (web_browser_device device_id device_secret
                                               user_id now)) ;;;
         db_commit ;;;
         let* access_token :=
           create_device_specific_jwt user_id device_id device_secret None in
         ret (mkTokenResponse access_token "bearer" (user_response_of db_user))
     end)
    (fun _ =>
       internal_error "An internal server error occurred during auto-login").

(** ** get_current_user_info ([GET /auth/me]) *)

(** [if k in d and d[k]: if hasattr(d[k], "isoformat"): d[k] = d[k].isoformat()] *)
Definition isoformat_field (k : string) (d : gmap string Value)
  : gmap string Value :=
  match d !! k with
  | Some (VDateTime t) => <[k := VStr (isoformat t)]> d
  | _ => d
  end.

Definition required_str (v : option Value) : option string :=
  match v with Some (VStr s) => Some s | _ => None end.

Definition optional_str (v : option Value) : option (option string) :=
  match v with
  | None | Some VNone => Some None
  | Some (VStr s) => Some (Some s)
  | Some (VDateTime _) => None
  end.

(** The response model built from the keyword arguments [user_data]: the
    declared fields are validated, keys that are not fields of the model are
    ignored. *)
Definition UserResponse_of_kwargs (d : gmap string Value)
  : option UserResponse :=
  match required_str (d !! "id"), required_str (d !! "username"),
        required_str (d !! "email"), required_str (d !! "tier"),
        optional_str (d !! "subscription_valid_until"),
        required_str (d !! "created_at") with
  | Some i, Some n, Some e, Some t, Some s, Some c =>
      Some (mkUserResponse i n e t s c)
  | _, _, _, _, _, _ => None
  end.

(** The [dict] before it is handed to the response model: timestamps rendered,
    [device_id] popped. *)
Definition profile_kwargs (current_user : gmap string Value)
  : gmap string Value :=
  delete "device_id"
    (isoformat_field "subscription_valid_until"
       (isoformat_field "created_at" current_user)).

Definition get_current_user_info (current_user : gmap string Value)
  : M UserResponse :=
  try_except
    (match UserResponse_of_kwargs (profile_kwargs current_user) with
     | Some r => ret r
     | None => raise ValidationError
     end)
    (fun _ => raise (HTTPException 500 "An internal server error occurred")).


(** [GET /auth/me]: the route with its dependency. *)
Definition me (authorization : option AuthorizationValue) : M UserResponse :=
  let* current_user := get_current_user authorization in
  get_current_user_info current_user.

End Router.

Arguments truthy : simpl never.

(** ** A concrete environment for the examples

    [symbolic] realises [Externals] by the free, collision-less keyed hash: a
    signature is the pair of the key and the signing input.  [isoformat]
    prints the seconds in decimal. *)

#[local] Instance symbolic : Externals := {|
  Sig := string * (string * Claims);
  hmac_sha256 k m := (k, m);
  isoformat t := pretty t
|}.

(** A world whose clock reads the draw count, whose n-th UUID and secret are
    ["uuid-n"] and ["secret-n"], and whose storage engine is always up. *)
Definition calm_world : World :=
  mkWorld (fun n => Z.of_nat n)
          (fun n => "uuid-" ++ pretty n)
          (fun n => "secret-" ++ pretty n)
          (fun _ => true).

(** The same world with an outage at the sixth draw. *)
Definition outage_world : World :=
  mkWorld (clock calm_world) (uuid4 calm_world) (token_urlsafe calm_world)
          (fun n => negb (Nat.eqb n 5)).

Definition empty_machine : Machine := mkMachine (mkSession [] [] []) 0.

Definition alice : DBUser.t :=
  DBUser.mk "user-1" "alice" "alice@example.com" "essential" None None 0 0.

Definition device_A : DBDevice.t :=
  DBDevice.mk "fingerprint-A" (Some "Web Browser") (Some "web") "secret-A"
              "user-1" true 0 0 0.

Definition device_B : DBDevice.t :=
  DBDevice.mk "fingerprint-B" (Some "Web Browser") (Some "web") "secret-B"
              "user-1" true 0 0 0.


Definition two_devices : Machine :=
  mkMachine (mkSession [alice] [device_A; device_B] []) 10.



(** The two requests of the scenario of the specification. *)
Definition connect_abc123 : DeviceConnectRequest :=
  mkDeviceConnectRequest "abc123" (Some "Web Browser") (Some "web").

Definition connect_xyz999 : DeviceConnectRequest :=
  mkDeviceConnectRequest "xyz999" (Some "Web Browser") (Some "web").

(** The claims a token states. *)
Definition token_claims `{Externals} (token : Token) : option Claims :=
  match token with
  | Malformed => None
  | JWS _ c _ => Some c
  end.


(** ** Vocabulary of the properties *)

(** The storage engine serves every commit. *)
Definition storage_always_up (w : World) : Prop :=
  forall n, storage_up w n = true.

(** Successive readings of the clock do not go back. *)
Definition clock_monotone (w : World) : Prop :=
  forall i j, (i <= j)%nat -> clock w i <= clock w j.

(** The foreign key of [devices]: every device row belongs to a user row. *)
Definition referential_integrity (s : Session) : Prop :=
  forall d, d ∈ devices s -> DBDevice.user_id d ∈ DBUser.id <$> users s.


(** The names the specification gives to the failures of the verifier, as
    the [raise] statements of [verify_device_token] spell them. *)
Definition InvalidFormat : Exception :=
  HTTPException 401 "Invalid token format".
Definition DeviceNotFound : Exception :=
  HTTPException 401 "Device not found or inactive".
Definition InvalidSignature : Exception :=
  HTTPException 401 "Invalid token".
Definition Expired : Exception :=
  HTTPException 401 "Invalid token".

(** What the two [except] clauses of [verify_device_token] make of an
    exception of its body. *)
Definition surfaced (e : Exception) : Exception :=
  match e with
  | JWTError _ => HTTPException 401 "Invalid token"
  | _ => HTTPException 401 "Token verification failed"
  end.

(** A token signed for [device_A] whose [device_id] claim was removed, and
    one that names a device that was never registered. *)
Definition claims_A : Claims :=
  mkClaims (Some "user-1") (Some "fingerprint-A") (Some 0) (Some 604800).




(** A token of [device_A] that expired long before the tenth reading of the
    clock of [calm_world]. *)
Definition claims_A_expired : Claims :=
  mkClaims (Some "user-1") (Some "fingerprint-A") (Some 0) (Some 5).

Definition token_expired : Token :=
  JWS JWT_ALGORITHM claims_A_expired
      (hmac_sha256 "secret-A" (JWT_ALGORITHM, claims_A_expired)).







(** ** The legacy mode of the router

    [config.JWT_SECRET_KEY] is [os.getenv("JWT_SECRET_KEY", default)]:
    [environ] is the value of the variable when it is set. *)
Definition JWT_SECRET_KEY (environ : option string) : string :=
  default "your-secret-key-change-in-production" environ.

(** [create_access_token]: [data], a [dict] restricted to the keys of
    [Claims], is copied, [device_id] is set to the argument when that is
    true and to a new UUID otherwise, [exp] is set, and the result is signed
    with the process-wide key. *)
Definition create_access_token `{Externals} (environ : option string)
    (data : Claims) (expires_delta : option Z) (device_id : option string)
  : M Token :=
  let* expire :=
    match expires_delta with
    | Some delta =>
        if (delta =? 0)%Z
        then (let* now := datetime_now in
              ret (now + timedelta_days JWT_ACCESS_TOKEN_EXPIRE_DAYS))
        else (let* now := datetime_now in ret (now + delta))
    | None =>
        let* now := datetime_now in
        ret (now + timedelta_days JWT_ACCESS_TOKEN_EXPIRE_DAYS)
    end in
  let* device_id :=
    if truthy device_id then ret (default "" device_id) else str_uuid4 in
  ret (jwt_encode (mkClaims (sub data) (Some device_id) (iat data)
                            (Some expire))
                  (JWT_SECRET_KEY environ) JWT_ALGORITHM).

(** [verify_token]: only [JWTError] is caught. *)
Definition verify_token `{Externals} (environ : option string) (token : Token)
  : M Claims :=
  try_except
    (jwt_decode token (JWT_SECRET_KEY environ) [JWT_ALGORITHM])
    (fun e =>
       match e with
       | JWTError _ => raise (HTTPException 401 "Invalid token")
       | _ => raise e
       end).

(** ** Requests and the stores they reach *)

(** A request to one of the routes of the router. *)
Inductive Request `{Externals} :=
| PostRegister (user_data : UserCreate)
| PostLogin (user_data : UserCreate)
| PostAutoConnect (device_request : DeviceConnectRequest)
| PostAutoLogin
| GetMe (authorization : option AuthorizationValue).

(** The machine after a request has been served in its own session. *)
Definition serve `{Externals} (rq : Request) (w : World) (m : Machine)
  : Machine :=
  match rq with
  | PostRegister user_data => snd (run_request (register user_data) w m)
  | PostLogin user_data => snd (run_request (login user_data) w m)
  | PostAutoConnect device_request =>
      snd (run_request (auto_connect device_request) w m)
  | PostAutoLogin => snd (run_request auto_login w m)
  | GetMe authorization => snd (run_request (me authorization) w m)
  end.

(** The machines that requests, served one after the other, lead to from
    [m0]. *)
Inductive reachable `{Externals} (w : World) (m0 : Machine) : Machine -> Prop :=
| reachable_start : reachable w m0 m0
| reachable_serve m rq : reachable w m0 m -> reachable w m0 (serve rq w m).

(** Two device rows that differ at most in [last_used_at]. *)
Definition same_but_last_used (d d' : DBDevice.t) : Prop :=
  DBDevice.touch 0 d = DBDevice.touch 0 d'.

(** [s'] keeps every row of [s]: the users of [s] open the users of [s'], and
    every device row of [s] is at its place in [s'], changed at most in
    [last_used_at]. *)
Definition grows (s s' : Session) : Prop :=
  users s `prefix_of` users s' /\
  forall i d, devices s !! i = Some d ->
    exists d', devices s' !! i = Some d' /\ same_but_last_used d d'.

(** The constraints of the schema hold of the tables. *)
Definition schema_ok (s : Session) : Prop :=
  NoDup (DBUser.id <$> users s) /\
  NoDup (DBUser.email <$> users s) /\
  NoDup (DBDevice.device_id <$> devices s) /\
  referential_integrity s.

Definition all_active (s : Session) : Prop :=
  Forall (fun d => DBDevice.is_active d = true) (devices s).

(** A pending change that adds no inactive device. *)
Definition adds_active (c : Change) : Prop :=
  match c with
  | AddDevice d => DBDevice.is_active d = true
  | _ => True
  end.

(** A computation, started with pending changes that all satisfy [P],
    relates the tables it starts from to the tables it leaves by [R], and
    leaves pending changes that all satisfy [P]. *)
Definition respects {A} (P : Change -> Prop) (R : Session -> Session -> Prop)
    (c : M A) : Prop :=
  forall w m r m',
    Forall P (pending (db m)) -> c w m = (r, m') ->
    R (db m) (db m') /\ Forall P (pending (db m')).

Arguments jwt_decode : simpl never.
Arguments create_device_specific_jwt : simpl never.
Arguments get_or_create_device_for_fingerprint : simpl never.
Arguments verify_device_token : simpl never.
Arguments verify_device_token_body : simpl never.
Arguments get_current_user : simpl never.
Arguments get_current_user_info : simpl never.
Arguments register : simpl never.

Ltac unfold_monad :=
  unfold bind, ret, raise, try_except, datetime_now, str_uuid4,
    secrets_token_urlsafe, draw, get_session, put_session in *.

Ltac unfold_db :=
  unfold query_user_by_email, query_user_by_id, query_user_first,
    query_device_first, db_add, db_commit, db_rollback, db_refresh,
    internal_error in *.

(** * Properties *)

Section Properties.
Context `{HE : Externals}.

(** ** Library steps *)



(** The issuer always returns: two readings of the clock, no other effect. *)
Lemma create_device_specific_jwt_eq u d s delta w m :
  create_device_specific_jwt u d s delta w m =
    (Ok (jwt_encode
           (mkClaims (Some u) (Some d) (Some (clock w (tick m)))
              (Some (clock w (S (tick m)) +
                     match delta with
                     | Some t => if (t =? 0)%Z
                                 then timedelta_days JWT_ACCESS_TOKEN_EXPIRE_DAYS
                                 else t
                     | None => timedelta_days JWT_ACCESS_TOKEN_EXPIRE_DAYS
                     end)))
           s JWT_ALGORITHM),
     mkMachine (db m) (S (S (tick m)))).
Proof.
  unfold create_device_specific_jwt. unfold_monad. simpl.
  destruct delta as [t|]; [destruct (t =? 0)%Z |]; reflexivity.
Qed.

(** The verified decode of a token that [jwt_encode] made with the same key:
    it fails only when the token has expired. *)
Lemma jwt_decode_encode c key w m :
  jwt_decode (jwt_encode c key JWT_ALGORITHM) key [JWT_ALGORITHM] w m =
    match exp c with
    | Some e =>
        if (e <? clock w (tick m))%Z
        then (Raise (JWTError ExpiredSignature), mkMachine (db m) (S (tick m)))
        else (Ok c, mkMachine (db m) (S (tick m)))
    | None => (Ok c, m)
    end.
Proof.
  unfold jwt_decode, jwt_encode.
  rewrite bool_decide_eq_true_2 by (apply list_elem_of_singleton; reflexivity).
  rewrite bool_decide_eq_true_2 by reflexivity. simpl.
  destruct (exp c) as [e|]; [| reflexivity].
  unfold_monad. simpl. destruct (e <? clock w (tick m))%Z; reflexivity.
Qed.


(** ** The verifier, step by step

    The body of [verify_device_token] fails at the first step that fails:
    unverified decode, presence of the two claims, device lookup, verified
    decode, commit of [last_used_at]. *)


Lemma verify_device_token_body_invalid_format alg c sg w m :
  truthy (device_id c) && truthy (sub c) = false ->
  verify_device_token_body (JWS alg c sg) w m = (Raise InvalidFormat, m).
Proof.
  intros Hf. unfold verify_device_token_body, jwt_decode_unverified.
  unfold_monad. simpl.
  destruct (truthy (device_id c)), (truthy (sub c)); simpl in *;
    try discriminate; reflexivity.
Qed.

Lemma verify_device_token_body_device_not_found alg c sg w m :
  truthy (device_id c) = true -> truthy (sub c) = true ->
  list_find (device_row_matches (default "" (device_id c)) (default "" (sub c)))
            (devices (db m)) = None ->
  verify_device_token_body (JWS alg c sg) w m = (Raise DeviceNotFound, m).
Proof.
  intros Hd Hu Hfind.
  unfold verify_device_token_body, jwt_decode_unverified, query_device_first.
  unfold_monad. simpl. rewrite Hd, Hu. simpl. rewrite Hfind. reflexivity.
Qed.

Lemma verify_device_token_body_decode_fails alg c sg w m row dev e m' :
  truthy (device_id c) = true -> truthy (sub c) = true ->
  list_find (device_row_matches (default "" (device_id c)) (default "" (sub c)))
            (devices (db m)) = Some (row, dev) ->
  jwt_decode (JWS alg c sg) (DBDevice.jwt_secret_key dev) [JWT_ALGORITHM] w m =
    (Raise e, m') ->
  verify_device_token_body (JWS alg c sg) w m = (Raise e, m').
Proof.
  intros Hd Hu Hfind Hdec.
  unfold verify_device_token_body, jwt_decode_unverified, query_device_first.
  unfold_monad. simpl. rewrite Hd, Hu. simpl. rewrite Hfind. simpl.
  rewrite Hdec. reflexivity.
Qed.

(** The verified decode draws at most one reading of the clock and leaves
    the session alone. *)
Lemma jwt_decode_db token key algs w m r m' :
  jwt_decode token key algs w m = (r, m') -> db m' = db m.
Proof.
  unfold jwt_decode. destruct token as [|alg c sg]; unfold_monad.
  - intros [= <- <-]. reflexivity.
  - destruct (negb (bool_decide (alg ∈ algs))); [intros [= <- <-]; reflexivity |].
    destruct (negb (bool_decide (sg = hmac_sha256 key (alg, c))));
      [intros [= <- <-]; reflexivity |].
    destruct (exp c) as [e|]; [| intros [= <- <-]; reflexivity].
    simpl. destruct (e <? clock w (tick m))%Z; intros [= <- <-]; reflexivity.
Qed.

Lemma jwt_decode_ok_claims alg c sg key algs w m c' m' :
  jwt_decode (JWS alg c sg) key algs w m = (Ok c', m') -> c' = c.
Proof.
  unfold jwt_decode. unfold_monad.
  destruct (negb (bool_decide (alg ∈ algs))); [intros [= ] |].
  destruct (negb (bool_decide (sg = hmac_sha256 key (alg, c)))); [intros [= ] |].
  destruct (exp c) as [e|]; [| intros [= <- <-]; reflexivity].
  simpl. destruct (e <? clock w (tick m))%Z; intros [= <- <-]; reflexivity.
Qed.



Lemma verify_device_token_ok token w m c m' :
  verify_device_token token w m = (Ok c, m') <->
  verify_device_token_body token w m = (Ok c, m').
Proof.
  unfold verify_device_token, try_except.
  destruct (verify_device_token_body token w m) as [[c0|e] m0].
  - reflexivity.
  - split; [| discriminate]. destruct e; discriminate.
Qed.

Lemma verify_device_token_raise_inv token w m e m' :
  verify_device_token token w m = (Raise e, m') ->
  exists e0, verify_device_token_body token w m = (Raise e0, m') /\
             e = surfaced e0.
Proof.
  unfold verify_device_token, try_except.
  destruct (verify_device_token_body token w m) as [[c0|e0] m0].
  - discriminate.
  - intros Hh. exists e0.
    destruct e0; unfold verify_device_token_handler, raise in Hh;
      injection Hh as <- <-; split; reflexivity.
Qed.

(** ** The session context resolver, step by step *)

Lemma verify_device_token_ok_truthy token w m c m' :
  verify_device_token token w m = (Ok c, m') ->
  truthy (sub c) = true /\ truthy (device_id c) = true.
Proof.
  intros Hv. apply verify_device_token_ok in Hv. revert Hv.
  unfold verify_device_token_body, jwt_decode_unverified, query_device_first,
    db_add, db_commit.
  destruct token as [|alg c0 sg]; unfold_monad; simpl; [intros [= ] |].
  destruct (truthy (device_id c0)) eqn:Hd; simpl; [| intros [= ]].
  destruct (truthy (sub c0)) eqn:Hu; simpl; [| intros [= ]].
  destruct (list_find _ _) as [[row dev]|]; simpl; [| intros [= ]].
  destruct (jwt_decode _ _ _ w m) as [[c1|e] m1] eqn:Hdec; [| intros [= ]].
  pose proof (jwt_decode_ok_claims _ _ _ _ _ _ _ _ _ Hdec) as ->.
  simpl. destruct (storage_up w (S (tick m1))); [| intros [= ]].
  destruct (flush _ _); simpl; [| intros [= ]].
  intros [= -> <-]. split; assumption.
Qed.

(** After a successful verification the resolver looks the subject up and
    answers with the user's record or with 401. *)
Lemma get_current_user_verified token w m c m1 :
  verify_device_token token w m = (Ok c, m1) ->
  get_current_user (Some (Bearer token)) w m =
    match list_find (fun u => DBUser.id u = default "" (sub c))
                    (users (db m1)) with
    | Some (_, u) => (Ok (current_user_dict u (default "" (device_id c))), m1)
    | None => (Raise (HTTPException 401 "User not found"), m1)
    end.
Proof.
  intros Hv. destruct (verify_device_token_ok_truthy _ _ _ _ _ Hv) as [Hu Hd].
  unfold get_current_user, query_user_by_id. unfold_monad.
  rewrite Hv. simpl. rewrite Hu, Hd. simpl.
  destruct (list_find _ _) as [[i u]|]; reflexivity.
Qed.

(** A failure of the verifier is passed on as it is. *)
Lemma get_current_user_unverified token w m e m1 :
  verify_device_token token w m = (Raise e, m1) ->
  get_current_user (Some (Bearer token)) w m = (Raise e, m1).
Proof.
  intros Hv. destruct (verify_device_token_raise_inv _ _ _ _ _ Hv) as (e0 & _ & ->).
  unfold get_current_user. unfold_monad. rewrite Hv.
  destruct e0; reflexivity.
Qed.



(** ** The provisioning endpoints, step by step *)

(** A successful [register]: one user row and one device row are appended,
    both built from draws made during the call. *)
Lemma register_ok_inv ud w m r m' :
  pending (db m) = [] ->
  register ud w m = (Ok r, m') ->
  let n := tick m in
  let u := DBUser.mk (uuid4 w n) (uc_username ud) (uc_email ud) "essential"
                     None None (clock w (S n)) (clock w (S n)) in
  let dev := web_browser_device (uuid4 w (3 + n)) (token_urlsafe w (4 + n))
                                (uuid4 w n) (clock w (S n)) in
  db m' = mkSession (users (db m) ++ [u]) (devices (db m) ++ [dev]) [] /\
  tick m' = (8 + n)%nat /\
  user r = user_response_of u.
Proof.
  intros Hp. unfold register. unfold_db. unfold_monad. simpl.
  destruct (list_find _ _) as [[i u0]|]; simpl; [intros [= ] |].
  rewrite Hp. simpl.
  destruct (storage_up w (S (S (tick m)))); simpl; [| intros [= ]].
  destruct (_ || _); simpl; [intros [= ] |].
  destruct (storage_up w (S (S (S (S (S (tick m))))))); simpl; [| intros [= ]].
  destruct (_ || _); simpl; [intros [= ] |].
  intros [= <- <-]. simpl. repeat split; reflexivity.
Qed.


(** A successful [login] with a known e-mail: one device row is appended for
    the user found. *)
Lemma login_known_ok_inv ud w m r m' i u :
  pending (db m) = [] ->
  list_find (fun u => DBUser.email u = uc_email ud) (users (db m)) = Some (i, u) ->
  login ud w m = (Ok r, m') ->
  let n := tick m in
  let dev := web_browser_device (uuid4 w n) (token_urlsafe w (S n))
                                (DBUser.id u) (clock w (2 + n)) in
  db m' = mkSession (users (db m)) (devices (db m) ++ [dev]) [] /\
  tick m' = (6 + n)%nat /\
  user r = user_response_of u.
Proof.
  intros Hp Hfind. unfold login. unfold_db. unfold_monad. simpl.
  rewrite Hfind. simpl. rewrite Hp. simpl.
  destruct (storage_up w (S (S (S (tick m))))); simpl; [| intros [= ]].
  destruct (_ || _); simpl; [intros [= ] |].
  intros [= <- <-]. simpl. repeat split; reflexivity.
Qed.




(** ** The device registry, step by step *)

Lemma device_row_matches_touch f u now d :
  device_row_matches f u (DBDevice.touch now d) <-> device_row_matches f u d.
Proof. reflexivity. Qed.

(** Touching the row that a lookup found does not move the lookup. *)
Lemma list_find_touch f u now (ds : list DBDevice.t) row d :
  list_find (device_row_matches f u) ds = Some (row, d) ->
  list_find (device_row_matches f u) (alter (DBDevice.touch now) row ds)
  = Some (row, DBDevice.touch now d).
Proof.
  intros (Hlook & Hm & Hleast)%list_find_Some. apply list_find_Some.
  split; [rewrite list_lookup_alter_eq, Hlook; reflexivity |].
  split; [exact Hm |].
  intros j y Hj Hlt. rewrite list_lookup_alter_ne in Hj by lia.
  eapply Hleast; eassumption.
Qed.

(** A row appended after a failed lookup is what the next lookup finds. *)
Lemma list_find_appended f u (ds : list DBDevice.t) d :
  list_find (device_row_matches f u) ds = None ->
  device_row_matches f u d ->
  list_find (device_row_matches f u) (ds ++ [d]) = Some (length ds, d).
Proof.
  intros Hnone Hm. rewrite list_find_app_r by exact Hnone. simpl.
  rewrite decide_True by exact Hm. reflexivity.
Qed.

(** The registry finds the row: it is touched, nothing is added. *)
Lemma get_or_create_device_found f name type uid w m row d :
  pending (db m) = [] ->
  list_find (device_row_matches f uid) (devices (db m)) = Some (row, d) ->
  storage_up w (S (tick m)) = true ->
  get_or_create_device_for_fingerprint f name type uid w m
  = (Ok (DBDevice.touch (clock w (tick m)) d),
     mkMachine
       (mkSession (users (db m))
          (alter (DBDevice.touch (clock w (tick m))) row (devices (db m))) [])
       (2 + tick m)).
Proof.
  intros Hp Hfind Hup. unfold get_or_create_device_for_fingerprint.
  unfold_db. unfold_monad. simpl. rewrite Hfind. simpl.
  rewrite Hup, Hp. reflexivity.
Qed.

(** What a successful run of the registry did. *)
Lemma get_or_create_device_ok_inv f name type uid w m d' m' :
  pending (db m) = [] ->
  get_or_create_device_for_fingerprint f name type uid w m = (Ok d', m') ->
  match list_find (device_row_matches f uid) (devices (db m)) with
  | Some (row, d) =>
      d' = DBDevice.touch (clock w (tick m)) d /\
      db m' = mkSession (users (db m))
                (alter (DBDevice.touch (clock w (tick m))) row (devices (db m)))
                [] /\
      tick m' = (2 + tick m)%nat
  | None =>
      d' = DBDevice.mk f name type (token_urlsafe w (tick m)) uid true
             (clock w (S (tick m))) (clock w (S (tick m)))
             (clock w (S (tick m))) /\
      db m' = mkSession (users (db m)) (devices (db m) ++ [d']) [] /\
      tick m' = (3 + tick m)%nat
  end.
Proof.
  intros Hp. unfold get_or_create_device_for_fingerprint.
  unfold_db. unfold_monad. simpl.
  destruct (list_find _ _) as [[row d]|]; simpl; rewrite Hp; simpl.
  - destruct (storage_up w (S (tick m))); simpl; [| intros [= ]].
    intros [= <- <-]. repeat split; reflexivity.
  - destruct (storage_up w (S (S (tick m)))); simpl; [| intros [= ]].
    destruct (_ || _); simpl; [intros [= ] |].
    intros [= <- <-]. repeat split; reflexivity.
Qed.

(** After a successful run, a lookup of the same pair finds the row that the
    registry returned. *)
Lemma get_or_create_device_then_found f name type uid w m d' m' :
  pending (db m) = [] ->
  get_or_create_device_for_fingerprint f name type uid w m = (Ok d', m') ->
  exists row,
    list_find (device_row_matches f uid) (devices (db m')) = Some (row, d') /\
    users (db m') = users (db m) /\ pending (db m') = [] /\
    (tick m < tick m')%nat /\
    (exists i, (tick m <= i < tick m')%nat /\
               DBDevice.last_used_at d' = clock w i).
Proof.
  intros Hp Hrun.
  pose proof (get_or_create_device_ok_inv _ _ _ _ _ _ _ _ Hp Hrun) as Hinv.
  destruct (list_find _ _) as [[row d]|] eqn:Hfind.
  - destruct Hinv as (-> & Hdb & Htick). exists row. rewrite Hdb, Htick. simpl.
    split; [apply list_find_touch; exact Hfind |].
    repeat split; try lia. exists (tick m). split; [lia | reflexivity].
  - destruct Hinv as (Hd & Hdb & Htick). exists (length (devices (db m))).
    rewrite Hdb, Htick. simpl.
    split; [apply list_find_appended; [exact Hfind | rewrite Hd; repeat split] |].
    repeat split; try lia. exists (S (tick m)).
    split; [lia | rewrite Hd; reflexivity].
Qed.


(** [auto_connect] when the store has a user: the registry runs for the
    first user, then the token is issued. *)
Lemma auto_connect_existing_user req w m u :
  head (users (db m)) = Some u ->
  auto_connect req w m =
    match get_or_create_device_for_fingerprint (device_fingerprint req)
            (dc_device_name req) (dc_device_type req) (DBUser.id u) w m with
    | (Ok device, m1) =>
        (Ok (mkTokenResponse
               (jwt_encode
                  (mkClaims (Some (DBUser.id u))
                     (Some (DBDevice.device_id device))
                     (Some (clock w (tick m1)))
                     (Some (clock w (S (tick m1)) +
                            timedelta_days JWT_ACCESS_TOKEN_EXPIRE_DAYS)))
                  (DBDevice.jwt_secret_key device) JWT_ALGORITHM)
               "bearer" (user_response_of u)),
         mkMachine (db m1) (2 + tick m1))
    | (Raise e, m1) =>
        internal_error "An internal server error occurred during auto-connect"
                       w m1
    end.
Proof.
  intros Hu. unfold auto_connect, query_user_first. unfold_monad. simpl.
  rewrite Hu.
  destruct (get_or_create_device_for_fingerprint _ _ _ _ w m) as [[dev|e] m1];
    reflexivity.
Qed.


(** The registry does not find the row: with the fingerprint unused, the
    user present and the commit served, one row is appended. *)
Lemma get_or_create_device_new f name type uid w m :
  pending (db m) = [] ->
  list_find (device_row_matches f uid) (devices (db m)) = None ->
  f ∉ DBDevice.device_id <$> devices (db m) ->
  uid ∈ DBUser.id <$> users (db m) ->
  storage_up w (2 + tick m) = true ->
  let dev := DBDevice.mk f name type (token_urlsafe w (tick m)) uid true
               (clock w (S (tick m))) (clock w (S (tick m)))
               (clock w (S (tick m))) in
  get_or_create_device_for_fingerprint f name type uid w m
  = (Ok dev,
     mkMachine (mkSession (users (db m)) (devices (db m) ++ [dev]) [])
               (3 + tick m)).
Proof.
  intros Hp Hfind Hfresh Huser Hup. unfold get_or_create_device_for_fingerprint.
  unfold_db. unfold_monad. simpl in *. rewrite Hfind. simpl.
  rewrite Hup, Hp. simpl.
  rewrite bool_decide_eq_false_2 by exact Hfresh.
  rewrite bool_decide_eq_true_2 by exact Huser. reflexivity.
Qed.

(** [auto_connect] on an empty store: the default user is committed, then
    the registry appends the device, then the token is issued. *)
Lemma auto_connect_empty_store req w n :
  storage_up w (2 + n) = true -> storage_up w (5 + n) = true ->
  let u := demo_user (uuid4 w n) (clock w (S n)) in
  let dev := DBDevice.mk (device_fingerprint req) (dc_device_name req)
               (dc_device_type req) (token_urlsafe w (3 + n)) (uuid4 w n) true
               (clock w (4 + n)) (clock w (4 + n)) (clock w (4 + n)) in
  auto_connect req w (mkMachine (mkSession [] [] []) n)
  = (Ok (mkTokenResponse
           (jwt_encode
              (mkClaims (Some (uuid4 w n)) (Some (device_fingerprint req))
                 (Some (clock w (6 + n)))
                 (Some (clock w (7 + n) +
                        timedelta_days JWT_ACCESS_TOKEN_EXPIRE_DAYS)))
              (token_urlsafe w (3 + n)) JWT_ALGORITHM)
           "bearer" (user_response_of u)),
     mkMachine (mkSession [u] [dev] []) (8 + n)).
Proof.
  intros Hup1 Hup2.
  unfold auto_connect, get_or_create_device_for_fingerprint.
  unfold_db. unfold_monad. simpl in *.
  rewrite Hup1. simpl. rewrite Hup2. simpl.
  rewrite bool_decide_eq_true_2 by apply list_elem_of_here. reflexivity.
Qed.


(** The signature and expiry failures of the verified decode reach the
    caller as the same [HTTPException]. *)
Lemma surfaced_decode_failures :
  surfaced (JWTError SignatureFailed) = InvalidSignature /\
  surfaced (JWTError ExpiredSignature) = Expired.
Proof. split; reflexivity. Qed.

(** Whatever makes the resolver fail, the status is 401. *)
Lemma get_current_user_raises_401 authorization w m e m' :
  get_current_user authorization w m = (Raise e, m') ->
  status_of e = Some 401.
Proof.
  destruct authorization as [[token|v]|];
    [| intros [= <- _]; reflexivity | intros [= <- _]; reflexivity].
  destruct (verify_device_token token w m) as [[c|e0] m1] eqn:Hv.
  - rewrite (get_current_user_verified _ _ _ _ _ Hv).
    destruct (list_find _ _) as [[i u]|]; [discriminate |].
    intros [= <- _]. reflexivity.
  - rewrite (get_current_user_unverified _ _ _ _ _ Hv). intros [= <- _].
    destruct (verify_device_token_raise_inv _ _ _ _ _ Hv) as (e1 & _ & ->).
    destruct e1; reflexivity.
Qed.

(** A failed [register] in a fresh session leaves no pending change and no
    new device row; the user row is there when the failure came after the
    first commit. *)
Lemma register_failure_inv ud w m e m' :
  pending (db m) = [] ->
  run_request (register ud) w m = (Raise e, m') ->
  devices (db m') = devices (db m) /\ pending (db m') = [] /\
  (users (db m') = users (db m) \/
   exists u, users (db m') = (users (db m) ++ [u])%list).
Proof.
  intros Hp. unfold run_request, register. unfold_db. unfold_monad. simpl.
  destruct (list_find _ _) as [[i u0]|]; simpl;
    [intros [= _ <-]; simpl; auto |].
  rewrite Hp. simpl.
  destruct (storage_up w (S (S (tick m)))); simpl;
    [| intros [= _ <-]; simpl; auto].
  destruct (_ || _); simpl; [intros [= _ <-]; simpl; auto |].
  destruct (storage_up w (S (S (S (S (S (tick m))))))); simpl;
    [| intros [= _ <-]; simpl; eauto].
  destruct (_ || _); simpl; [intros [= _ <-]; simpl; eauto |].
  intros [= ].
Qed.

End Properties.

(** * The properties of the specification *)

(** ** C1: the order of the verifier and the failure it reports *)

(** The steps are taken in the order the specification gives, and the body
    of the [try] statement raises the failure that belongs to the first step
    that fails. *)
Lemma verify_device_token_body_order `{HE : Externals} token w m :
  match token with
  | Malformed =>
      verify_device_token_body token w m = (Raise (JWTError DecodeError), m)
  | JWS alg c sg =>
      if negb (truthy (device_id c) && truthy (sub c))
      then verify_device_token_body token w m = (Raise InvalidFormat, m)
      else
        match list_find (device_row_matches (default "" (device_id c))
                                            (default "" (sub c)))
                        (devices (db m)) with
        | None =>
            verify_device_token_body token w m = (Raise DeviceNotFound, m)
        | Some (row, dev) =>
            match jwt_decode token (DBDevice.jwt_secret_key dev)
                             [JWT_ALGORITHM] w m with
            | (Raise e, m') =>
                verify_device_token_body token w m = (Raise e, m')
            | (Ok _, _) => True
            end
        end
  end.
Proof.
  destruct token as [|alg c sg]; [reflexivity |].
  destruct (truthy (device_id c)) eqn:Hd; simpl;
    [| apply verify_device_token_body_invalid_format; rewrite Hd; reflexivity].
  destruct (truthy (sub c)) eqn:Hu; simpl;
    [| apply verify_device_token_body_invalid_format; rewrite Hd, Hu;
       reflexivity].
  destruct (list_find _ _) as [[row dev]|] eqn:Hfind;
    [| apply verify_device_token_body_device_not_found; assumption].
  destruct (jwt_decode _ _ _ w m) as [[c1|e] m1] eqn:Hdec; [exact I |].
  eapply verify_device_token_body_decode_fails; eassumption.
Qed.


(** ** C2: a token moved to another device *)




(** ** C3: round trip of issue and verify *)

(** The empty fingerprint reaches the issuer: [auto_connect] registers a
    device under it and returns a token that the very next request cannot
    use. *)
Lemma auto_connect_with_empty_fingerprint :
  match run_request (auto_connect (mkDeviceConnectRequest "" None None))
                    calm_world empty_machine with
  | (Ok r, m1) =>
      (DBDevice.device_id <$> devices (db m1)) = [""] /\
      fst (me (Some (Bearer (access_token r))) calm_world m1)
      = Raise (HTTPException 401 "Token verification failed")
  | (Raise _, _) => False
  end.
Proof. vm_compute. split; reflexivity. Qed.




(** ** C4: what a failed call leaves behind *)

(** C4, at the failing input: [register] commits the user row before it
    inserts the device row; when the second commit is not served, the
    rollback of the handler has only the device to forget, the call answers
    500, and the user row it created stays in the store.  [auto_connect] on a
    store without users does the same. *)
Theorem failed_register_leaves_user_row :
  let new_user :=
    DBUser.mk "uuid-0" "bob" "bob@example.com" "essential" None None 1 1 in
  let demo := demo_user "uuid-0" 1 in
  run_request (register (mkUserCreate "bob" "bob@example.com"))
              outage_world empty_machine
  = (Raise (HTTPException 500
              "An internal server error occurred during registration"),
     mkMachine (mkSession [new_user] [] []) 6) /\
  run_request (auto_connect (mkDeviceConnectRequest "fingerprint-A"
                               (Some "Web Browser") (Some "web")))
              outage_world empty_machine
  = (Raise (HTTPException 500
              "An internal server error occurred during auto-connect"),
     mkMachine (mkSession [demo] [] []) 6) /\
  users (db empty_machine) = [].
Proof.
  repeat split; vm_compute; reflexivity.
Qed.

(** ** C5: what the caller learns from an authentication failure *)




(** ** C6: auto-connect is idempotent on a fingerprint *)

(** C6: when the store has a user and an [auto_connect] for a fingerprint
    succeeds, the next [auto_connect] for the same fingerprint, served by
    the storage engine, succeeds for the same user and the same
    [device_id]; it adds no user and no device row, it changes only the row
    of that device, and the [last_used_at] of that row does not decrease,
    the clock being monotone. *)
Theorem auto_connect_idempotent `{HE : Externals} req w m0 u r1 m1 :
  pending (db m0) = [] ->
  head (users (db m0)) = Some u ->
  clock_monotone w ->
  storage_always_up w ->
  run_request (auto_connect req) w m0 = (Ok r1, m1) ->
  exists r2 m2 c1 c2 row d1 d2,
    run_request (auto_connect req) w m1 = (Ok r2, m2) /\
    token_claims (access_token r1) = Some c1 /\
    token_claims (access_token r2) = Some c2 /\
    device_id c1 = Some (device_fingerprint req) /\
    device_id c2 = device_id c1 /\
    sub c1 = Some (DBUser.id u) /\ sub c2 = sub c1 /\
    users (db m2) = users (db m1) /\
    length (devices (db m2)) = length (devices (db m1)) /\
    devices (db m1) !! row = Some d1 /\
    devices (db m2) !! row = Some d2 /\
    (forall j, j <> row -> devices (db m2) !! j = devices (db m1) !! j) /\
    DBDevice.device_id d1 = device_fingerprint req /\
    DBDevice.device_id d2 = device_fingerprint req /\
    DBDevice.last_used_at d1 <= DBDevice.last_used_at d2.
Proof.
  intros Hp Hu Hmono Hup. unfold run_request.
  rewrite (auto_connect_existing_user _ _ _ _ Hu).
  destruct (get_or_create_device_for_fingerprint _ _ _ _ w m0)
    as [[dev|e] m'] eqn:Hfirst; [| unfold internal_error; unfold_db;
                                   unfold_monad; simpl; intros [= ]].
  intros [= <- <-].
  destruct (get_or_create_device_then_found _ _ _ _ _ _ _ _ Hp Hfirst)
    as (row & Hfind & Husers & Hp' & Htick & i & Hi & Hlast).
  set (m1 := close (mkMachine (db m') (2 + tick m'))).
  assert (Hu1 : head (users (db m1)) = Some u)
    by (simpl; rewrite Husers; exact Hu).
  assert (Hfind1 : list_find (device_row_matches (device_fingerprint req)
                                                 (DBUser.id u))
                             (devices (db m1)) = Some (row, dev))
    by exact Hfind.
  rewrite (auto_connect_existing_user _ _ _ _ Hu1).
  assert (Hp1 : pending (db m1) = []) by reflexivity.
  rewrite (get_or_create_device_found _ _ _ _ _ _ _ _ Hp1 Hfind1 (Hup _)).
  pose proof Hfind as (Hlook & (Hid & _ & _) & _)%list_find_Some.
  eexists _, _, _, _, row, dev, (DBDevice.touch (clock w (tick m1)) dev).
  split; [reflexivity |]. simpl.
  split; [reflexivity |]. split; [reflexivity |].
  split; [rewrite Hid; reflexivity |]. split; [reflexivity |].
  split; [reflexivity |]. split; [reflexivity |]. split; [reflexivity |].
  split; [apply length_alter |].
  split; [exact Hlook |].
  split; [rewrite list_lookup_alter_eq, Hlook; reflexivity |].
  split; [intros j Hj; apply list_lookup_alter_ne; congruence |].
  split; [exact Hid |]. split; [exact Hid |].
  rewrite Hlast. apply Hmono. lia.
Qed.

Lemma auto_connect_idempotent_witness :
  match run_request
          (auto_connect (mkDeviceConnectRequest "fingerprint-A"
                           (Some "Web Browser") (Some "web")))
          calm_world two_devices with
  | (Ok r1, m1) =>
      exists r2 m2 c1 c2 row d1 d2,
        run_request
          (auto_connect (mkDeviceConnectRequest "fingerprint-A"
                           (Some "Web Browser") (Some "web")))
          calm_world m1 = (Ok r2, m2) /\
        token_claims (access_token r1) = Some c1 /\
        token_claims (access_token r2) = Some c2 /\
        device_id c1 = Some "fingerprint-A" /\
        device_id c2 = device_id c1 /\
        sub c1 = Some (DBUser.id alice) /\ sub c2 = sub c1 /\
        users (db m2) = users (db m1) /\
        length (devices (db m2)) = length (devices (db m1)) /\
        devices (db m1) !! row = Some d1 /\
        devices (db m2) !! row = Some d2 /\
        (forall j, j <> row -> devices (db m2) !! j = devices (db m1) !! j) /\
        DBDevice.device_id d1 = "fingerprint-A" /\
        DBDevice.device_id d2 = "fingerprint-A" /\
        DBDevice.last_used_at d1 <= DBDevice.last_used_at d2
  | (Raise _, _) => False
  end.
Proof.
  destruct (run_request
              (auto_connect (mkDeviceConnectRequest "fingerprint-A"
                               (Some "Web Browser") (Some "web")))
              calm_world two_devices) as [[r1|e] m1] eqn:Hrun.
  - apply (auto_connect_idempotent
             (mkDeviceConnectRequest "fingerprint-A" (Some "Web Browser")
                                     (Some "web"))
             calm_world two_devices alice r1 m1).
    + reflexivity.
    + reflexivity.
    + intros i j Hij. simpl. lia.
    + intros n. reflexivity.
    + exact Hrun.
  - vm_compute in Hrun. discriminate Hrun.
Defined.

(** ** C7: provisioning by auto-connect *)

(** C7: on a store without users whose device rows respect the foreign
    key, and with the storage engine serving every commit, an
    [auto_connect] creates exactly one user and exactly one device; a
    following [auto_connect] with another fingerprint adds one device for
    that same user and no user. *)
Theorem auto_connect_provisions `{HE : Externals} req1 req2 w m0 :
  pending (db m0) = [] ->
  users (db m0) = [] ->
  referential_integrity (db m0) ->
  storage_always_up w ->
  device_fingerprint req1 <> device_fingerprint req2 ->
  exists r1 m1 r2 m2 u d1 d1' d2,
    run_request (auto_connect req1) w m0 = (Ok r1, m1) /\
    users (db m1) = [u] /\ devices (db m1) = [d1] /\
    DBDevice.device_id d1 = device_fingerprint req1 /\
    DBDevice.user_id d1 = DBUser.id u /\
    ur_id (user r1) = DBUser.id u /\
    run_request (auto_connect req2) w m1 = (Ok r2, m2) /\
    users (db m2) = [u] /\ devices (db m2) = [d1'; d2] /\
    d1' = d1 /\
    DBDevice.device_id d2 = device_fingerprint req2 /\
    DBDevice.user_id d2 = DBUser.id u /\
    ur_id (user r2) = DBUser.id u.
Proof.
  intros Hp Hus Hfk Hup Hne.
  assert (Hds : devices (db m0) = []).
  { destruct (devices (db m0)) as [|d ds] eqn:Hds; [reflexivity |].
    exfalso. specialize (Hfk d). rewrite Hds, Hus in Hfk.
    specialize (Hfk (list_elem_of_here _ _)). inversion Hfk. }
  destruct m0 as [[us ds ps] n]. simpl in Hp, Hus, Hds. subst us ds ps.
  pose proof (auto_connect_empty_store req1 w n (Hup _) (Hup _)) as H1.
  cbv zeta in H1.
  set (u := demo_user (uuid4 w n) (clock w (S n))) in *.
  set (d1 := DBDevice.mk (device_fingerprint req1) (dc_device_name req1)
               (dc_device_type req1) (token_urlsafe w (3 + n)) (uuid4 w n) true
               (clock w (4 + n)) (clock w (4 + n)) (clock w (4 + n))) in *.
  set (m1 := close (mkMachine (mkSession [u] [d1] []) (8 + n))).
  set (d2 := DBDevice.mk (device_fingerprint req2) (dc_device_name req2)
               (dc_device_type req2) (token_urlsafe w (tick m1)) (DBUser.id u)
               true (clock w (S (tick m1))) (clock w (S (tick m1)))
               (clock w (S (tick m1)))).
  assert (H2 : exists r2,
             auto_connect req2 w m1
             = (Ok r2, mkMachine (mkSession [u] [d1; d2] []) (5 + tick m1)) /\
             ur_id (user r2) = DBUser.id u).
  { rewrite (auto_connect_existing_user req2 w m1 u eq_refl).
    assert (Hnone : list_find (device_row_matches (device_fingerprint req2)
                                                  (DBUser.id u))
                              (devices (db m1)) = None).
    { apply list_find_None. repeat constructor. intros (Hid & _). apply Hne.
      exact Hid. }
    rewrite (get_or_create_device_new _ _ _ _ w m1 eq_refl Hnone).
    - eexists. split; reflexivity.
    - simpl. intros Hin. apply list_elem_of_singleton in Hin.
      apply Hne. symmetry. exact Hin.
    - apply list_elem_of_here.
    - apply Hup. }
  destruct H2 as (r2 & H2 & Hr2).
  eexists _, m1, r2, _, u, d1, d1, d2.
  split; [unfold run_request; rewrite H1; reflexivity |].
  do 5 (split; [reflexivity |]).
  split; [unfold run_request; rewrite H2; reflexivity |].
  do 5 (split; [reflexivity |]). exact Hr2.
Qed.

(** The scenario of the specification: fingerprint "abc123" on the empty
    store, then fingerprint "xyz999". *)
Lemma auto_connect_provisions_witness :
  exists r1 m1 r2 m2 u d1 d1' d2,
    run_request (auto_connect connect_abc123) calm_world empty_machine
      = (Ok r1, m1) /\
    users (db m1) = [u] /\ devices (db m1) = [d1] /\
    DBDevice.device_id d1 = device_fingerprint connect_abc123 /\
    DBDevice.user_id d1 = DBUser.id u /\
    ur_id (user r1) = DBUser.id u /\
    run_request (auto_connect connect_xyz999) calm_world m1 = (Ok r2, m2) /\
    users (db m2) = [u] /\ devices (db m2) = [d1'; d2] /\
    d1' = d1 /\
    DBDevice.device_id d2 = device_fingerprint connect_xyz999 /\
    DBDevice.user_id d2 = DBUser.id u /\
    ur_id (user r2) = DBUser.id u.
Proof.
  apply (auto_connect_provisions connect_abc123 connect_xyz999 calm_world
           empty_machine).
  - reflexivity.
  - reflexivity.
  - intros d Hd. inversion Hd.
  - intros n. reflexivity.
  - discriminate.
Defined.

(** ** C8: the profile of [GET /auth/me] *)



(** ** C9: register, login and auto-login always add a device *)



(** ** C10: a verified token still needs its user *)



(** * Further properties of the router *)

(** ** What every request does to the tables

    The tables change only when a commit flushes the pending changes, and
    the router adds three kinds of change: a user row, an active device row,
    a new [last_used_at].  A relation between tables that holds across each
    such change, that is transitive, and that holds between equal tables
    therefore holds across every computation of the router. *)

Section Respects.
Context `{HE : Externals}.
Variable P : Change -> Prop.
Variable R : Session -> Session -> Prop.
Hypothesis P_user : forall u, P (AddUser u).
Hypothesis P_device : forall d, DBDevice.is_active d = true -> P (AddDevice d).
Hypothesis P_touch : forall row now, P (SetLastUsed row now).
Hypothesis R_same_tables :
  forall s s', users s' = users s -> devices s' = devices s -> R s s'.
Hypothesis R_trans : forall s1 s2 s3, R s1 s2 -> R s2 s3 -> R s1 s3.
Hypothesis R_flush_change :
  forall s c s', P c -> flush_change s c = Some s' -> R s s'.

Lemma R_refl s : R s s.
Proof. apply R_same_tables; reflexivity. Qed.

Lemma flush_change_pending s c s' :
  flush_change s c = Some s' -> pending s' = pending s.
Proof.
  destruct c; simpl; [destruct (_ || _) | destruct (_ || _) |];
    intros [= <-]; reflexivity.
Qed.

Lemma R_flush cs :
  forall s s', Forall P cs -> flush s cs = Some s' ->
               R s s' /\ pending s' = pending s.
Proof.
  induction cs as [|c cs IH]; intros s s' HP; simpl.
  - intros [= <-]. split; [apply R_refl | reflexivity].
  - destruct (flush_change s c) as [s1|] eqn:Hc; [| discriminate].
    intros Hcs. apply Forall_cons in HP as [HPc HPcs].
    destruct (IH _ _ HPcs Hcs) as [HR Hp]. split.
    + eapply R_trans; [eapply R_flush_change; eassumption | exact HR].
    + rewrite Hp. eapply flush_change_pending. exact Hc.
Qed.

Lemma respects_ret {A} (a : A) : respects P R (ret a).
Proof. intros w m r m' HP [= <- <-]. split; [apply R_refl | exact HP]. Qed.

Lemma respects_raise {A} e : respects P R (@raise A e).
Proof. intros w m r m' HP [= <- <-]. split; [apply R_refl | exact HP]. Qed.

Lemma respects_bind {A B} (c : M A) (k : A -> M B) :
  respects P R c -> (forall a, respects P R (k a)) -> respects P R (bind c k).
Proof.
  intros Hc Hk w m r m' HP. unfold bind.
  destruct (c w m) as [[a|e] m1] eqn:Hcm.
  - intros Hkm. destruct (Hc _ _ _ _ HP Hcm) as [HR1 HP1].
    destruct (Hk _ _ _ _ _ HP1 Hkm) as [HR2 HP2].
    split; [eapply R_trans; eassumption | exact HP2].
  - intros [= <- <-]. eapply Hc; eassumption.
Qed.

Lemma respects_try_except {A} (body : M A) handler :
  respects P R body -> (forall e, respects P R (handler e)) ->
  respects P R (try_except body handler).
Proof.
  intros Hb Hh w m r m' HP. unfold try_except.
  destruct (body w m) as [[a|e] m1] eqn:Hbm.
  - intros [= <- <-]. eapply Hb; eassumption.
  - intros Hhm. destruct (Hb _ _ _ _ HP Hbm) as [HR1 HP1].
    destruct (Hh _ _ _ _ _ HP1 Hhm) as [HR2 HP2].
    split; [eapply R_trans; eassumption | exact HP2].
Qed.

Lemma respects_draw {A} (oracle : World -> nat -> A) :
  respects P R (draw oracle).
Proof. intros w m r m' HP [= <- <-]. split; [apply R_refl | exact HP]. Qed.

Lemma respects_get_session : respects P R get_session.
Proof. intros w m r m' HP [= <- <-]. split; [apply R_refl | exact HP]. Qed.

Lemma respects_db_add c : P c -> respects P R (db_add c).
Proof.
  intros Hc w m r m' HP [= <- <-]. simpl.
  split; [apply R_same_tables; reflexivity |].
  apply Forall_app. split; [exact HP | apply Forall_singleton; exact Hc].
Qed.

Lemma respects_db_rollback : respects P R db_rollback.
Proof.
  intros w m r m' HP [= <- <-]. simpl.
  split; [apply R_same_tables; reflexivity | constructor].
Qed.

Lemma respects_db_commit : respects P R db_commit.
Proof.
  intros w m r m' HP. unfold db_commit. unfold_monad. simpl.
  destruct (storage_up w (tick m));
    [| intros [= <- <-]; split; [apply R_refl | exact HP]].
  destruct (flush _ (pending (db m))) as [s'|] eqn:Hf;
    intros [= <- <-]; simpl; [| split; [apply R_refl | exact HP]].
  destruct (R_flush _ _ _ HP Hf) as [HR Hp]. split.
  - eapply R_trans; [| exact HR]. apply R_same_tables; reflexivity.
  - rewrite Hp. constructor.
Qed.

Lemma respects_jwt_decode token key algs :
  respects P R (jwt_decode token key algs).
Proof.
  intros w m r m' HP Hd. rewrite (jwt_decode_db _ _ _ _ _ _ _ Hd).
  split; [apply R_refl | exact HP].
Qed.

Lemma respects_create_device_specific_jwt u d s delta :
  respects P R (create_device_specific_jwt u d s delta).
Proof.
  intros w m r m' HP. rewrite create_device_specific_jwt_eq.
  intros [= <- <-]. split; [apply R_refl | exact HP].
Qed.

Create HintDb respects.

#[local] Hint Resolve respects_ret respects_raise respects_draw
  respects_get_session respects_db_add respects_db_rollback respects_db_commit
  respects_jwt_decode respects_create_device_specific_jwt
  P_user P_device P_touch : respects.

Ltac respects_steps :=
  repeat first
    [ progress cbv beta zeta
    | solve [eauto with respects]
    | apply respects_bind; [| intros ?]
    | apply respects_try_except; [| intros ?]
    | match goal with
      | |- respects _ _ (match ?x with _ => _ end) => destruct x
      end ].

Lemma respects_query_device_first f u : respects P R (query_device_first f u).
Proof. unfold query_device_first. respects_steps. Qed.

Lemma respects_query_user_by_email e : respects P R (query_user_by_email e).
Proof. unfold query_user_by_email. respects_steps. Qed.

Lemma respects_query_user_by_id i : respects P R (query_user_by_id i).
Proof. unfold query_user_by_id. respects_steps. Qed.

Lemma respects_query_user_first : respects P R query_user_first.
Proof. unfold query_user_first. respects_steps. Qed.

#[local] Hint Resolve respects_query_device_first respects_query_user_by_email
  respects_query_user_by_id respects_query_user_first : respects.

Lemma respects_internal_error {A} message :
  respects P R (@internal_error A message).
Proof. unfold internal_error. respects_steps. Qed.

Lemma respects_get_or_create f name type uid :
  respects P R (get_or_create_device_for_fingerprint f name type uid).
Proof.
  unfold get_or_create_device_for_fingerprint, secrets_token_urlsafe,
    datetime_now, db_refresh.
  respects_steps.
Qed.

Lemma respects_verify_device_token token :
  respects P R (verify_device_token token).
Proof.
  unfold verify_device_token, verify_device_token_body,
    verify_device_token_handler, jwt_decode_unverified, datetime_now.
  respects_steps.
Qed.

#[local] Hint Resolve respects_internal_error respects_get_or_create
  respects_verify_device_token : respects.

Lemma respects_get_current_user authorization :
  respects P R (get_current_user authorization).
Proof. unfold get_current_user. respects_steps. Qed.

Lemma respects_get_current_user_info cu :
  respects P R (get_current_user_info cu).
Proof. unfold get_current_user_info. respects_steps. Qed.

Lemma respects_register ud : respects P R (register ud).
Proof.
  unfold register, web_browser_device, str_uuid4, secrets_token_urlsafe,
    datetime_now, db_refresh.
  respects_steps.
Qed.

#[local] Hint Resolve respects_get_current_user respects_get_current_user_info
  respects_register : respects.

Lemma respects_login ud : respects P R (login ud).
Proof.
  unfold login, web_browser_device, str_uuid4, secrets_token_urlsafe,
    datetime_now.
  respects_steps.
Qed.

Lemma respects_auto_connect req : respects P R (auto_connect req).
Proof.
  unfold auto_connect, str_uuid4, datetime_now, db_refresh.
  respects_steps.
Qed.

Lemma respects_auto_login : respects P R auto_login.
Proof.
  unfold auto_login, web_browser_device, str_uuid4, secrets_token_urlsafe,
    datetime_now, db_refresh.
  respects_steps.
Qed.

Lemma respects_me authorization : respects P R (me authorization).
Proof. unfold me. respects_steps. Qed.

Lemma respects_run_request {A} (c : M A) w m :
  respects P R c -> Forall P (pending (db m)) ->
  R (db m) (db (snd (run_request c w m))).
Proof.
  intros Hc HP. unfold run_request.
  destruct (c w m) as [r m'] eqn:Hcm. simpl.
  destruct (Hc _ _ _ _ HP Hcm) as [HR _].
  eapply R_trans; [exact HR |]. apply R_same_tables; reflexivity.
Qed.

(** Every request relates the tables before it to the tables after it. *)
Lemma serve_respects rq w m :
  Forall P (pending (db m)) -> R (db m) (db (serve rq w m)).
Proof.
  intros HP.
  destruct rq; simpl; apply respects_run_request;
    auto using respects_login, respects_auto_connect, respects_auto_login,
               respects_me with respects.
Qed.

End Respects.

Lemma serve_pending `{HE : Externals} rq w m : pending (db (serve rq w m)) = [].
Proof.
  destruct rq; simpl; unfold run_request;
    match goal with |- context [?c w m] => destruct (c w m) end; reflexivity.
Qed.

(** ** Rows are kept *)

Lemma same_but_last_used_touch now d :
  same_but_last_used d (DBDevice.touch now d).
Proof. reflexivity. Qed.

Lemma grows_same_tables s s' :
  users s' = users s -> devices s' = devices s -> grows s s'.
Proof.
  intros Hu Hd. unfold grows. rewrite Hu, Hd. split; [reflexivity |].
  intros i d Hi. exists d. split; [exact Hi | reflexivity].
Qed.

Lemma grows_trans s1 s2 s3 : grows s1 s2 -> grows s2 s3 -> grows s1 s3.
Proof.
  intros [Hu1 Hd1] [Hu2 Hd2]. split; [etransitivity; eassumption |].
  intros i d Hi. destruct (Hd1 i d Hi) as (d' & Hi' & Hs).
  destruct (Hd2 i d' Hi') as (d'' & Hi'' & Hs').
  exists d''. split; [exact Hi'' |]. unfold same_but_last_used in *.
  congruence.
Qed.

Lemma grows_flush_change s c s' : flush_change s c = Some s' -> grows s s'.
Proof.
  destruct c as [u | d | row now]; simpl.
  - destruct (_ || _); [discriminate |]. intros [= <-]. split; simpl.
    + apply prefix_app_r. reflexivity.
    + intros i d Hi. exists d. split; [exact Hi | reflexivity].
  - destruct (_ || _); [discriminate |]. intros [= <-]. split; simpl.
    + reflexivity.
    + intros i d0 Hi. exists d0.
      split; [apply lookup_app_l_Some; exact Hi | reflexivity].
  - intros [= <-]. split; simpl; [reflexivity |].
    intros i d Hi. destruct (decide (row = i)) as [-> | Hne].
    + exists (DBDevice.touch now d).
      rewrite list_lookup_alter_eq, Hi. split; [reflexivity |].
      apply same_but_last_used_touch.
    + exists d. rewrite list_lookup_alter_ne by exact Hne.
      split; [exact Hi | reflexivity].
Qed.

Lemma Forall_True_changes (cs : list Change) : Forall (fun _ => True) cs.
Proof. apply Forall_forall. intros; exact I. Qed.

Lemma serve_grows `{HE : Externals} rq w m : grows (db m) (db (serve rq w m)).
Proof.
  apply (serve_respects (fun _ => True) grows); try (intros; exact I).
  - apply grows_same_tables.
  - apply grows_trans.
  - intros s c s' _. apply grows_flush_change.
  - apply Forall_True_changes.
Qed.

(** X1: over any sequence of requests, whatever their outcomes, no user row
    is removed or changed, and every device row stays at its place with its
    [device_id], its secret, its owner and its [is_active] flag: at most
    [last_used_at] differs. *)
Theorem requests_only_grow `{HE : Externals} w m0 m :
  reachable w m0 m -> grows (db m0) (db m).
Proof.
  induction 1 as [| m rq Hm IH].
  - apply grows_same_tables; reflexivity.
  - eapply grows_trans; [exact IH | apply serve_grows].
Qed.

Lemma requests_only_grow_witness :
  grows (db two_devices)
        (db (serve (GetMe (Some (Bearer token_expired))) calm_world
               (serve (PostAutoConnect connect_abc123) calm_world two_devices))).
Proof.
  apply (requests_only_grow calm_world two_devices).
  apply reachable_serve, reachable_serve, reachable_start.
Defined.

(** ** The constraints of the schema are kept *)

Lemma schema_ok_flush_change s c s' :
  flush_change s c = Some s' -> schema_ok s -> schema_ok s'.
Proof.
  intros Hc (Hid & Hem & Hdev & Hfk).
  destruct c as [u | d | row now]; simpl in Hc.
  - destruct (bool_decide _) eqn:Hi; [discriminate |].
    destruct (bool_decide (DBUser.email u ∈ _)) eqn:He; [discriminate |].
    apply bool_decide_eq_false in Hi, He. injection Hc as <-.
    unfold schema_ok, referential_integrity. simpl. rewrite !fmap_app. simpl.
    split; [| split; [| split; [exact Hdev |]]].
    + apply NoDup_app. split; [exact Hid |].
      split; [| apply NoDup_singleton].
      intros x Hx Hx'. apply list_elem_of_singleton in Hx'. subst x. auto.
    + apply NoDup_app. split; [exact Hem |].
      split; [| apply NoDup_singleton].
      intros x Hx Hx'. apply list_elem_of_singleton in Hx'. subst x. auto.
    + intros d Hd. apply elem_of_app. left. apply Hfk. exact Hd.
  - destruct (bool_decide _) eqn:Hi; [discriminate |].
    destruct (bool_decide (DBDevice.user_id d ∈ _)) eqn:Hu; [| discriminate].
    apply bool_decide_eq_false in Hi. apply bool_decide_eq_true in Hu.
    injection Hc as <-.
    unfold schema_ok, referential_integrity. simpl. rewrite !fmap_app. simpl.
    split; [exact Hid |]. split; [exact Hem |]. split.
    + apply NoDup_app. split; [exact Hdev |].
      split; [| apply NoDup_singleton].
      intros x Hx Hx'. apply list_elem_of_singleton in Hx'. subst x. auto.
    + intros d0 [Hd0 | Hd0]%elem_of_app; [apply Hfk; exact Hd0 |].
      apply list_elem_of_singleton in Hd0. subst d0. exact Hu.
  - injection Hc as <-.
    unfold schema_ok, referential_integrity. simpl.
    split; [exact Hid |]. split; [exact Hem |]. split.
    + rewrite (list_fmap_alter DBDevice.device_id (DBDevice.touch now) id)
        by (apply Forall_forall; reflexivity).
      rewrite list_alter_id by reflexivity. exact Hdev.
    + intros d (i & Hi)%list_elem_of_lookup.
      rewrite list_lookup_alter in Hi.
      destruct (decide (row = i)) as [-> | Hne].
      * destruct (devices s !! i) as [d0|] eqn:Hd0; [| discriminate].
        injection Hi as <-. simpl. apply Hfk.
        apply list_elem_of_lookup. eauto.
      * apply Hfk. apply list_elem_of_lookup. eauto.
Qed.

Lemma schema_ok_rel_trans (s1 s2 s3 : Session) :
  (schema_ok s1 -> schema_ok s2) -> (schema_ok s2 -> schema_ok s3) ->
  schema_ok s1 -> schema_ok s3.
Proof. auto. Qed.

Lemma schema_ok_same_tables s s' :
  users s' = users s -> devices s' = devices s -> schema_ok s -> schema_ok s'.
Proof.
  unfold schema_ok, referential_integrity. intros -> ->. auto.
Qed.

Lemma serve_keeps_schema `{HE : Externals} rq w m :
  schema_ok (db m) -> schema_ok (db (serve rq w m)).
Proof.
  apply (serve_respects (fun _ => True) (fun s s' => schema_ok s -> schema_ok s'));
    try (intros; exact I).
  - apply schema_ok_same_tables.
  - apply schema_ok_rel_trans.
  - intros s c s' _. apply schema_ok_flush_change.
  - apply Forall_True_changes.
Qed.

(** ** Devices stay active *)

Lemma all_active_flush_change s c s' :
  adds_active c -> flush_change s c = Some s' -> all_active s -> all_active s'.
Proof.
  unfold all_active. destruct c as [u | d | row now]; simpl; intros Hc.
  - destruct (_ || _); [discriminate |]. intros [= <-]. simpl. auto.
  - destruct (_ || _); [discriminate |]. intros [= <-] Ha. simpl.
    apply Forall_app. split; [exact Ha |]. apply Forall_singleton. exact Hc.
  - intros [= <-] Ha. simpl. apply Forall_forall.
    intros d (i & Hi)%list_elem_of_lookup.
    rewrite list_lookup_alter in Hi.
    destruct (decide (row = i)) as [-> | Hne].
    + destruct (devices s !! i) as [d0|] eqn:Hd0; [| discriminate].
      injection Hi as <-. simpl.
      apply (proj1 (Forall_forall _ _) Ha). apply list_elem_of_lookup. eauto.
    + apply (proj1 (Forall_forall _ _) Ha). apply list_elem_of_lookup. eauto.
Qed.

Lemma serve_keeps_devices_active `{HE : Externals} rq w m :
  pending (db m) = [] ->
  all_active (db m) -> all_active (db (serve rq w m)).
Proof.
  intros Hp.
  apply (serve_respects adds_active (fun s s' => all_active s -> all_active s')).
  - intros u. exact I.
  - intros d Hd. exact Hd.
  - intros row now. exact I.
  - unfold all_active. intros s s' _ ->. auto.
  - auto.
  - intros s c s'. apply all_active_flush_change.
  - rewrite Hp. constructor.
Qed.

(** ** The stores that requests reach *)

(** X2: the requests keep the store well formed.  From a store that
    respects the constraints of the schema (unique user ids and e-mails,
    unique [device_id]s, every device with its user), holds only active
    devices and has nothing pending, every sequence of requests, whatever
    their outcomes, leads to such a store: no request deactivates a device,
    duplicates a key, or leaves a change uncommitted. *)
Theorem reachable_store_ok `{HE : Externals} w m0 m :
  schema_ok (db m0) -> all_active (db m0) -> pending (db m0) = [] ->
  reachable w m0 m ->
  schema_ok (db m) /\ all_active (db m) /\ pending (db m) = [].
Proof.
  intros Hs0 Ha0 Hp0. induction 1 as [| m rq Hm (Hs & Ha & Hp)].
  - auto.
  - split; [apply serve_keeps_schema; exact Hs |].
    split; [apply serve_keeps_devices_active; assumption |].
    apply serve_pending.
Qed.

Lemma reachable_store_ok_witness :
  schema_ok (db (serve (PostAutoConnect connect_xyz999) calm_world
                   (serve (PostAutoConnect connect_abc123) calm_world
                      empty_machine))) /\
  all_active (db (serve (PostAutoConnect connect_xyz999) calm_world
                    (serve (PostAutoConnect connect_abc123) calm_world
                       empty_machine))) /\
  pending (db (serve (PostAutoConnect connect_xyz999) calm_world
                 (serve (PostAutoConnect connect_abc123) calm_world
                    empty_machine))) = [].
Proof.
  apply (reachable_store_ok calm_world empty_machine).
  - unfold schema_ok, referential_integrity. simpl.
    repeat split; try constructor. intros d Hd. inversion Hd.
  - constructor.
  - reflexivity.
  - apply reachable_serve, reachable_serve, reachable_start.
Defined.

(** ** Registration and login *)

Lemma known_email_found (e : string) (us : list DBUser.t) :
  e ∈ DBUser.email <$> us ->
  exists i u, list_find (fun u => DBUser.email u = e) us = Some (i, u).
Proof.
  intros (u0 & He & Hin)%list_elem_of_fmap.
  destruct (list_find_elem_of (fun u => DBUser.email u = e) us u0 Hin
              (eq_sym He)) as [[i u] Hf].
  eauto.
Qed.

Lemma unknown_email_not_found (e : string) (us : list DBUser.t) :
  e ∉ DBUser.email <$> us ->
  list_find (fun u => DBUser.email u = e) us = None.
Proof.
  intros Hnot. apply list_find_None, Forall_forall. intros u Hin He.
  apply Hnot. apply list_elem_of_fmap. exists u. split; [symmetry |]; assumption.
Qed.

Lemma register_email_found `{HE : Externals} ud w m i u :
  list_find (fun u => DBUser.email u = uc_email ud) (users (db m)) = Some (i, u) ->
  register ud w m
  = (Raise (HTTPException 400 "Email already registered"), m).
Proof.
  intros Hf. unfold register. unfold_db. unfold_monad. simpl. rewrite Hf.
  reflexivity.
Qed.

(** X3: [register] with an e-mail that a user row already has answers 400
    "Email already registered" before anything is drawn or written: the
    machine is left exactly as it was. *)
Theorem register_conflict `{HE : Externals} ud w m :
  uc_email ud ∈ DBUser.email <$> users (db m) ->
  register ud w m
  = (Raise (HTTPException 400 "Email already registered"), m).
Proof.
  intros (i & u & Hf)%known_email_found.
  unfold register, query_user_by_email, try_except, bind, get_session, ret.
  simpl. rewrite Hf. reflexivity.
Qed.

Lemma register_conflict_witness :
  register (mkUserCreate "someone" "alice@example.com") calm_world two_devices
  = (Raise (HTTPException 400 "Email already registered"), two_devices).
Proof.
  apply (register_conflict (mkUserCreate "someone" "alice@example.com")
           calm_world two_devices).
  apply list_elem_of_here.
Defined.

(** The failures of the four provisioning endpoints. *)
Lemma register_raises `{HE : Externals} ud w m e m' :
  register ud w m = (Raise e, m') ->
  e = HTTPException 400 "Email already registered" \/
  e = HTTPException 500 "An internal server error occurred during registration".
Proof.
  unfold register. unfold_db. unfold_monad. simpl.
  destruct (list_find _ _) as [[i u0]|]; simpl; [intros [= <- _]; auto |].
  destruct (storage_up w (S (S (tick m)))); simpl; [| intros [= <- _]; auto].
  destruct (flush _ _) as [s1|]; simpl; [| intros [= <- _]; auto].
  destruct (storage_up w _); simpl; [| intros [= <- _]; auto].
  destruct (flush _ _) as [s2|]; simpl; [| intros [= <- _]; auto].
  intros [= ].
Qed.

Lemma login_email_not_found `{HE : Externals} ud w m :
  list_find (fun u => DBUser.email u = uc_email ud) (users (db m)) = None ->
  login ud w m = register ud w m.
Proof.
  intros Hnone.
  unfold login at 1. unfold query_user_by_email. unfold_monad. simpl.
  rewrite Hnone. simpl.
  destruct (register ud w m) as [[r|e] m'] eqn:Hreg; [reflexivity |].
  destruct (register_raises _ _ _ _ _ Hreg) as [-> | ->]; reflexivity.
Qed.

(** X4: [login] with an e-mail that no user row has is [register]: the same
    result, the same machine afterwards. *)
Theorem login_unknown_email_is_register `{HE : Externals} ud w m :
  uc_email ud ∉ DBUser.email <$> users (db m) ->
  login ud w m = register ud w m.
Proof.
  intros Hnot. apply login_email_not_found, unknown_email_not_found.
  exact Hnot.
Qed.

Lemma login_unknown_email_is_register_witness :
  login (mkUserCreate "bob" "bob@example.com") calm_world two_devices
  = register (mkUserCreate "bob" "bob@example.com") calm_world two_devices.
Proof.
  apply (login_unknown_email_is_register
           (mkUserCreate "bob" "bob@example.com") calm_world two_devices).
  intros Hin. apply list_elem_of_singleton in Hin. discriminate.
Defined.

Lemma login_known_raises `{HE : Externals} ud w m i u e m' :
  list_find (fun u => DBUser.email u = uc_email ud) (users (db m)) = Some (i, u) ->
  login ud w m = (Raise e, m') ->
  e = HTTPException 500 "An internal server error occurred during login".
Proof.
  intros Hf. unfold login. unfold_db. unfold_monad. simpl. rewrite Hf. simpl.
  destruct (storage_up w _); simpl; [| intros [= <- _]; auto].
  destruct (flush _ _) as [s1|]; simpl; [| intros [= <- _]; auto].
  intros [= ].
Qed.

(** X5: the provisioning endpoints fail with few statuses: [register] with
    400 for a taken e-mail or with 500; [login], [auto_connect] and
    [auto_login] with 500 only, so a login is never refused as a
    conflict. *)
Theorem provisioning_failure_status `{HE : Externals} rq w m e m' :
  match rq with
  | PostRegister ud => register ud w m = (Raise e, m')
  | PostLogin ud => login ud w m = (Raise e, m')
  | PostAutoConnect req => auto_connect req w m = (Raise e, m')
  | PostAutoLogin => auto_login w m = (Raise e, m')
  | GetMe _ => False
  end ->
  match rq with
  | PostRegister ud =>
      (status_of e = Some 400 /\
       uc_email ud ∈ DBUser.email <$> users (db m)) \/
      status_of e = Some 500
  | _ => status_of e = Some 500
  end.
Proof.
  destruct rq as [ud | ud | req | | auth]; intros Hrun.
  - destruct (decide (uc_email ud ∈ DBUser.email <$> users (db m)))
      as [Hin | Hnot].
    + destruct (known_email_found _ _ Hin) as (i & u & Hf).
      rewrite (register_email_found _ _ _ _ _ Hf) in Hrun.
      injection Hrun as <- _. left. split; [reflexivity | exact Hin].
    + right. destruct (register_raises _ _ _ _ _ Hrun) as [-> | ->];
        [| reflexivity].
      exfalso. revert Hrun. unfold register. unfold_db. unfold_monad. simpl.
      rewrite (unknown_email_not_found _ _ Hnot). simpl.
      destruct (storage_up w _); simpl; [| intros [= ]].
      destruct (flush _ _) as [s1|]; simpl; [| intros [= ]].
      destruct (storage_up w _); simpl; [| intros [= ]].
      destruct (flush _ _) as [s2|]; simpl; intros [= ].
  - destruct (decide (uc_email ud ∈ DBUser.email <$> users (db m)))
      as [(i & u & Hf)%known_email_found | Hnot].
    + rewrite (login_known_raises _ _ _ _ _ _ _ Hf Hrun). reflexivity.
    + rewrite (login_email_not_found _ _ _
                 (unknown_email_not_found _ _ Hnot)) in Hrun.
      destruct (register_raises _ _ _ _ _ Hrun) as [-> | ->];
        [| reflexivity].
      exfalso. revert Hrun. unfold register. unfold_db. unfold_monad. simpl.
      rewrite (unknown_email_not_found _ _ Hnot). simpl.
      destruct (storage_up w _); simpl; [| intros [= ]].
      destruct (flush _ _) as [s1|]; simpl; [| intros [= ]].
      destruct (storage_up w _); simpl; [| intros [= ]].
      destruct (flush _ _) as [s2|]; simpl; intros [= ].
  - revert Hrun. unfold auto_connect, try_except.
    destruct (bind _ _ w m) as [[r|e0] m1]; [intros [= ] |].
    unfold internal_error. unfold_db. unfold_monad. simpl.
    intros [= <- _]. reflexivity.
  - revert Hrun. unfold auto_login, try_except.
    destruct (bind _ _ w m) as [[r|e0] m1]; [intros [= ] |].
    unfold internal_error. unfold_db. unfold_monad. simpl.
    intros [= <- _]. reflexivity.
  - contradiction.
Qed.

Lemma provisioning_failure_status_witness :
  status_of (HTTPException 500
               "An internal server error occurred during registration")
  = Some 500.
Proof.
  apply (provisioning_failure_status
           (PostLogin (mkUserCreate "bob" "bob@example.com"))
           outage_world empty_machine
           (HTTPException 500
              "An internal server error occurred during registration")
           (mkMachine
              (mkSession [DBUser.mk "uuid-0" "bob" "bob@example.com"
                                    "essential" None None 1 1] [] [])
              6)).
  vm_compute. reflexivity.
Defined.

(** X6: after a successful [register], the e-mail is taken and it alone
    identifies the account: a second [register] with that e-mail, whatever
    the username, is refused with 400 and changes nothing, and a [login]
    with that e-mail that succeeds answers with the registered user,
    whatever the username, and adds no user. *)
Theorem register_then_same_email `{HE : Externals} ud ud2 w m r m1 :
  pending (db m) = [] ->
  register ud w m = (Ok r, m1) ->
  uc_email ud2 = uc_email ud ->
  register ud2 w (close m1)
  = (Raise (HTTPException 400 "Email already registered"), close m1) /\
  (forall r2 m2,
     login ud2 w (close m1) = (Ok r2, m2) ->
     user r2 = user r /\ users (db m2) = users (db m1)).
Proof.
  intros Hp Hreg Hemail.
  destruct (register_ok_inv _ _ _ _ _ Hp Hreg) as (Hdb & Htick & Hr).
  set (u := DBUser.mk (uuid4 w (tick m)) (uc_username ud) (uc_email ud)
              "essential" None None (clock w (S (tick m)))
              (clock w (S (tick m)))) in *.
  assert (Hnot : uc_email ud ∉ DBUser.email <$> users (db m)).
  { intros (i & u0 & Hf)%known_email_found.
    rewrite (register_email_found _ _ _ _ _ Hf) in Hreg. discriminate. }
  split.
  - apply (register_email_found ud2 w (close m1) (length (users (db m))) u).
    simpl. rewrite Hdb, Hemail. simpl.
    rewrite list_find_app_r by (apply unknown_email_not_found; exact Hnot).
    simpl. rewrite decide_True by reflexivity. reflexivity.
  - intros r2 m2 Hlogin.
    assert (Hf : list_find (fun u => DBUser.email u = uc_email ud2)
                           (users (db (close m1)))
                 = Some (length (users (db m)), u)).
    { simpl. rewrite Hdb, Hemail. simpl.
      rewrite list_find_app_r by (apply unknown_email_not_found; exact Hnot).
      simpl. rewrite decide_True by reflexivity. reflexivity. }
    assert (Hp1 : pending (db (close m1)) = []) by reflexivity.
    destruct (login_known_ok_inv _ _ _ _ _ _ _ Hp1 Hf Hlogin)
      as (Hdb2 & _ & Hr2).
    rewrite Hr2, Hr, Hdb2. split; reflexivity.
Qed.

Lemma register_then_same_email_witness :
  register (mkUserCreate "carol" "bob@example.com") calm_world
           (close (snd (register (mkUserCreate "bob" "bob@example.com")
                                 calm_world empty_machine)))
  = (Raise (HTTPException 400 "Email already registered"),
     close (snd (register (mkUserCreate "bob" "bob@example.com")
                          calm_world empty_machine))) /\
  (forall r2 m2,
     login (mkUserCreate "carol" "bob@example.com") calm_world
           (close (snd (register (mkUserCreate "bob" "bob@example.com")
                                 calm_world empty_machine)))
     = (Ok r2, m2) ->
     user r2
     = user_response_of
         (DBUser.mk "uuid-0" "bob" "bob@example.com" "essential" None None 1 1)
     /\ users (db m2)
        = users (db (snd (register (mkUserCreate "bob" "bob@example.com")
                                   calm_world empty_machine)))).
Proof.
  destruct (register (mkUserCreate "bob" "bob@example.com") calm_world
                     empty_machine) as [[r|e] m1] eqn:Hreg;
    [| vm_compute in Hreg; discriminate Hreg].
  assert (Hr : user r
               = user_response_of
                   (DBUser.mk "uuid-0" "bob" "bob@example.com" "essential"
                              None None 1 1)).
  { vm_compute in Hreg. injection Hreg as <- _. reflexivity. }
  rewrite <- Hr.
  apply (register_then_same_email (mkUserCreate "bob" "bob@example.com")
           (mkUserCreate "carol" "bob@example.com") calm_world empty_machine
           r m1 eq_refl Hreg eq_refl).
Defined.

(** ** The verifier *)








(** ** The session context resolver *)





(** ** From a token handed out to the next request *)




(** ** The login-free endpoints when a user exists *)

Lemma get_or_create_device_users `{HE : Externals} f name type uid w m r m' :
  pending (db m) = [] ->
  get_or_create_device_for_fingerprint f name type uid w m = (r, m') ->
  users (db m') = users (db m).
Proof.
  intros Hp. unfold get_or_create_device_for_fingerprint.
  unfold_db. unfold_monad. simpl.
  destruct (list_find _ _) as [[row d]|]; simpl; rewrite Hp; simpl.
  - destruct (storage_up w _); simpl; intros [= _ <-]; reflexivity.
  - destruct (storage_up w _); simpl; [| intros [= _ <-]; reflexivity].
    destruct (_ || _); simpl; intros [= _ <-]; reflexivity.
Qed.

(** X13: once the store has a user, [auto_connect] and [auto_login] create
    no other: whatever the fingerprint and whatever the outcome, the table
    of users is left as it was, and a response that is returned carries the
    first user. *)
Theorem login_free_endpoints_reuse_first_user `{HE : Externals} w m u :
  pending (db m) = [] ->
  head (users (db m)) = Some u ->
  (forall req r m',
     run_request (auto_connect req) w m = (r, m') ->
     users (db m') = users (db m) /\
     forall resp, r = Ok resp -> user resp = user_response_of u) /\
  (forall r m',
     run_request auto_login w m = (r, m') ->
     users (db m') = users (db m) /\
     forall resp, r = Ok resp -> user resp = user_response_of u).
Proof.
  intros Hp Hu. split.
  - intros req r m'. unfold run_request.
    rewrite (auto_connect_existing_user _ _ _ _ Hu).
    destruct (get_or_create_device_for_fingerprint _ _ _ _ w m)
      as [[dev|e] m1] eqn:Hreg;
      pose proof (get_or_create_device_users _ _ _ _ _ _ _ _ Hp Hreg) as Hus.
    + intros [= <- <-]. split; [exact Hus |]. intros resp [= <-]. reflexivity.
    + unfold internal_error. unfold_db. unfold_monad. simpl.
      intros [= <- <-]. split; [exact Hus |]. intros resp [= ].
  - intros r m'. unfold run_request, auto_login. unfold_db. unfold_monad.
    simpl. rewrite Hu. simpl. rewrite Hp. simpl.
    destruct (storage_up w _); simpl;
      [| intros [= <- <-]; split; [reflexivity | intros resp [= ]]].
    destruct (_ || _); simpl;
      [intros [= <- <-]; split; [reflexivity | intros resp [= ]] |].
    intros [= <- <-]. split; [reflexivity |]. intros resp [= <-]. reflexivity.
Qed.

Lemma login_free_endpoints_reuse_first_user_witness :
  users (db (snd (run_request (auto_connect connect_abc123) calm_world
                              two_devices)))
  = users (db two_devices).
Proof.
  apply (proj1 (login_free_endpoints_reuse_first_user calm_world two_devices
                  alice eq_refl eq_refl)
           connect_abc123
           (fst (run_request (auto_connect connect_abc123) calm_world
                             two_devices))).
  apply surjective_pairing.
Defined.

(** ** The lifetime of a token *)



(** ** The legacy mode *)

Lemma create_access_token_eq `{HE : Externals} environ data delta dev w m :
  create_access_token environ data delta dev w m =
  (Ok (jwt_encode
         (mkClaims (sub data)
            (Some (if truthy dev then default "" dev else uuid4 w (S (tick m))))
            (iat data)
            (Some (clock w (tick m) +
                   match delta with
                   | Some t => if (t =? 0)%Z
                               then timedelta_days JWT_ACCESS_TOKEN_EXPIRE_DAYS
                               else t
                   | None => timedelta_days JWT_ACCESS_TOKEN_EXPIRE_DAYS
                   end)))
         (JWT_SECRET_KEY environ) JWT_ALGORITHM),
   mkMachine (db m) (if truthy dev then S (tick m) else S (S (tick m)))).
Proof.
  unfold create_access_token. unfold_monad. simpl.
  destruct delta as [t|]; [destruct (t =? 0)%Z |]; simpl;
    destruct (truthy dev); reflexivity.
Qed.

(** X15: the legacy round trip needs no device.  A token of
    [create_access_token] is accepted by [verify_token] under the same
    environment while it has not expired, in any store and without a write;
    the claims returned keep [sub] and [iat] of the data, and their
    [device_id] is the argument when that is a non-empty string and a new
    UUID otherwise, whatever [device_id] the data had. *)
Theorem legacy_token_verifies `{HE : Externals} environ data delta dev w m0 m :
  let expiry :=
    clock w (tick m0) +
    match delta with
    | Some t => if (t =? 0)%Z then 7 * 86400 else t
    | None => 7 * 86400
    end in
  clock w (tick m) <= expiry ->
  exists token m1 c,
    create_access_token environ data delta dev w m0 = (Ok token, m1) /\
    verify_token environ token w m = (Ok c, mkMachine (db m) (S (tick m))) /\
    sub c = sub data /\ iat c = iat data /\ exp c = Some expiry /\
    device_id c
    = Some (if truthy dev then default "" dev else uuid4 w (S (tick m0))).
Proof.
  intros expiry Hexp. eexists _, _, _.
  split; [apply create_access_token_eq |].
  change (timedelta_days JWT_ACCESS_TOKEN_EXPIRE_DAYS) with (7 * 86400).
  fold expiry.
  split.
  { unfold verify_token, try_except. rewrite jwt_decode_encode. simpl exp.
    cbv iota.
    destruct (Z.ltb_spec expiry (clock w (tick m))); [lia | reflexivity]. }
  repeat split.
Qed.

Lemma legacy_token_verifies_witness :
  exists token m1 c,
    create_access_token None (mkClaims (Some "user-1") (Some "stale") None None)
      None (Some "") calm_world empty_machine = (Ok token, m1) /\
    verify_token None token calm_world empty_machine
    = (Ok c, mkMachine (db empty_machine) (S (tick empty_machine))) /\
    sub c = Some "user-1" /\ iat c = None /\
    exp c = Some (clock calm_world (tick empty_machine) + 7 * 86400) /\
    device_id c
    = Some (if truthy (Some "") then default "" (Some "")
            else uuid4 calm_world (S (tick empty_machine))).
Proof.
  apply (legacy_token_verifies (HE := symbolic) None
           (mkClaims (Some "user-1") (Some "stale") None None) None (Some "")
           calm_world empty_machine empty_machine).
  vm_compute. discriminate.
Defined.

(** X16: when [JWT_SECRET_KEY] is not set in the environment, the legacy
    verifier accepts every unexpired token that is signed with the default
    key written in [config.py], whoever made it. *)
Theorem legacy_default_key_accepts_any_holder `{HE : Externals} c w m :
  (forall e, exp c = Some e -> clock w (tick m) <= e) ->
  exists m',
    verify_token None
      (jwt_encode c "your-secret-key-change-in-production" JWT_ALGORITHM) w m
    = (Ok c, m') /\ db m' = db m.
Proof.
  intros Hexp. unfold verify_token, try_except, JWT_SECRET_KEY. simpl.
  rewrite jwt_decode_encode.
  destruct (exp c) as [e|]; [| eexists; split; reflexivity].
  destruct (Z.ltb_spec e (clock w (tick m)));
    [specialize (Hexp e eq_refl); lia | eexists; split; reflexivity].
Qed.

Lemma legacy_default_key_accepts_any_holder_witness :
  exists m',
    verify_token None
      (jwt_encode claims_A "your-secret-key-change-in-production" JWT_ALGORITHM)
      calm_world two_devices
    = (Ok claims_A, m') /\ db m' = db two_devices.
Proof.
  apply (legacy_default_key_accepts_any_holder claims_A calm_world two_devices).
  intros e [= <-]. vm_compute. discriminate.
Defined.



(** ** A fingerprint that is already taken *)

(** X18: [device_id] is unique in the table, but the registry looks a
    fingerprint up per user and per active flag.  When the fingerprint is
    the [device_id] of a row that the lookup for the first user does not
    find (the row of another user, or an inactive one), [auto_connect]
    cannot insert it: the call answers 500 and the tables are as they
    were. *)
Theorem auto_connect_fingerprint_taken `{HE : Externals} req w m u :
  pending (db m) = [] ->
  head (users (db m)) = Some u ->
  list_find (device_row_matches (device_fingerprint req) (DBUser.id u))
            (devices (db m)) = None ->
  device_fingerprint req ∈ DBDevice.device_id <$> devices (db m) ->
  exists m',
    run_request (auto_connect req) w m
    = (Raise (HTTPException 500
                "An internal server error occurred during auto-connect"), m')
    /\ users (db m') = users (db m) /\ devices (db m') = devices (db m)
    /\ pending (db m') = [].
Proof.
  intros Hp Hu Hnone Htaken. unfold run_request.
  rewrite (auto_connect_existing_user _ _ _ _ Hu).
  unfold get_or_create_device_for_fingerprint, internal_error.
  unfold_db. unfold_monad. simpl. rewrite Hnone. simpl. rewrite Hp. simpl.
  rewrite (bool_decide_eq_true_2 _ Htaken). simpl.
  destruct (storage_up w _); simpl; eexists; repeat split; reflexivity.
Qed.

(** The machine [two_devices] with a second user in front of [alice]. *)
Lemma auto_connect_fingerprint_taken_witness :
  exists m',
    run_request (auto_connect (mkDeviceConnectRequest "fingerprint-A" None None))
      calm_world
      (mkMachine
         (mkSession
            [DBUser.mk "user-0" "zoe" "zoe@example.com" "essential" None None
                       0 0; alice]
            [device_A; device_B] [])
         10)
    = (Raise (HTTPException 500
                "An internal server error occurred during auto-connect"), m')
    /\ users (db m')
       = [DBUser.mk "user-0" "zoe" "zoe@example.com" "essential" None None 0 0;
          alice]
    /\ devices (db m') = [device_A; device_B]
    /\ pending (db m') = [].
Proof.
  apply (auto_connect_fingerprint_taken
           (mkDeviceConnectRequest "fingerprint-A" None None) calm_world
           (mkMachine
              (mkSession
                 [DBUser.mk "user-0" "zoe" "zoe@example.com" "essential" None
                            None 0 0; alice]
                 [device_A; device_B] [])
              10)
           (DBUser.mk "user-0" "zoe" "zoe@example.com" "essential" None None
                      0 0)).
  - reflexivity.
  - reflexivity.
  - reflexivity.
  - apply list_elem_of_here.
Defined.

(** ** From registration to the next request *)



